(** * gcrt: the result pipeline of [GetCerts]

    A shallow embedding of [app/structs.go] (package [app] of gcrt): the
    records returned by crt.sh are decoded from a stream of concatenated
    JSON arrays, deduplicated, filtered by date and printed.

    Go strings are byte strings ([string]); Go's [int] and [int64] are
    integers in [Z]; the map used as a set by [removeDuplicateCerts] is a
    [gset string], the map returned by [reSubMatchMap] a
    [gmap string string].

    [GetCerts] reads flags, the network and the clock, writes on standard
    output and on the log, and may end the process: it is a function of
    an environment [Env] into a computation [Run], which lists what was
    written, in order, and says how the run ended.  The functions of Go's
    standard library that decide what [GetCerts] does ([time.Parse],
    [time.Date], [regexp], [encoding/json]) are written out for the
    layouts, the pattern and the values the program passes to them. *)

From Stdlib Require Import ZArith Ascii String DecimalString.
From stdpp Require Import gmap strings list sorting.

(** ** The record type *)

(** [type CertResponse struct] *)
Record CertResponse := mkCertResponse {
  IssuerCAID : Z;
  IssuerName : string;
  CommonName : string;
  NameValue : string;
  ID : Z;
  EntryTimestamp : string;
  NotBefore : string;
  NotAfter : string;
  SerialNumber : string
}.

(** ** Deduplication *)

(** The map key of [removeDuplicateCerts]: [c.NameValue+c.NotBefore]. *)
Definition dedupKey (c : CertResponse) : string :=
  NameValue c +:+ NotBefore c.

(** One iteration of the loop of [removeDuplicateCerts] on the state
    [(m, dedupedCerts)]. *)
Definition dedupStep (st : gset string * list CertResponse) (c : CertResponse)
  : gset string * list CertResponse :=
  let '(m, dedupedCerts) := st in
  if decide (dedupKey c ∈ m) then (m, dedupedCerts)
  else ({[dedupKey c]} ∪ m, dedupedCerts ++ [c]).

(** [func removeDuplicateCerts(certs []CertResponse) []CertResponse] *)
Definition removeDuplicateCerts (certs : list CertResponse) : list CertResponse :=
  snd (foldl dedupStep (∅, []) certs).


(** ** Go's [time] package, as far as [GetCerts] uses it

    Instants are Unix seconds and nanoseconds in [Z].  Go computes them in
    64-bit words; the two agree as long as the second counted from year 1
    fits in 64 bits, which it does for every four-digit year and for a
    [--days] of up to 10^14. *)
Module time.

Local Open Scope Z_scope.

(** [*time.Location]: the program only meets [time.UTC] (the result of
    [time.Parse]) and [time.Local] (the location of [time.Now()]). *)
Inductive Location := UTC | Local.

#[global] Instance Location_eq_dec : EqDecision Location.
Proof. solve_decision. Defined.

(** What [Location.lookup] returns for an instant: the zone offset in
    seconds east of UTC and the span [[zstart, zend)] of Unix seconds in
    which that zone is in force. *)
Record ZoneSpan := mkZoneSpan { offset : Z; zstart : Z; zend : Z }.

(** [type Time struct]: [unixSec] and [nsec] are [t.unixSec()] and
    [t.nsec()], [loc] is [t.Location()].  A time built by [Date] or
    [Parse] has no monotonic clock reading, so [wall] and [ext] carry
    exactly these two numbers. *)
Record Time := mkTime { unixSec : Z; nsec : Z; loc : Location }.

#[global] Instance Time_eq_dec : EqDecision Time.
Proof. solve_decision. Defined.

(** [type Duration int64], in nanoseconds. *)
Definition Nanosecond : Z := 1.
Definition Second : Z := 1000000000 * Nanosecond.
Definition Minute : Z := 60 * Second.
Definition Hour : Z := 60 * Minute.

Definition secondsPerMinute : Z := 60.
Definition secondsPerHour : Z := 60 * secondsPerMinute.
Definition secondsPerDay : Z := 24 * secondsPerHour.
Definition daysPer400Years : Z := 365 * 400 + 97.
Definition daysPer100Years : Z := 365 * 100 + 24.
Definition daysPer4Years : Z := 365 * 4 + 1.

(** Seconds from January 1 of year 1 to the Unix epoch
    ([unixToInternal]). *)
Definition unixToInternal : Z := (1969 * 365 + 1969 / 4 - 1969 / 100 + 1969 / 400) * secondsPerDay.

(** [alpha] and [omega]: the beginning and the end of time. *)
Definition alpha : Z := - 2 ^ 63.
Definition omega : Z := 2 ^ 63 - 1.

Definition January : Z := 1.
Definition February : Z := 2.
Definition March : Z := 3.

(** [var daysBefore = [...]int32]: days in a non-leap year before month
    [m + 1]. *)
Definition daysBefore (m : Z) : Z :=
  nth (Z.to_nat m) [0; 31; 59; 90; 120; 151; 181; 212; 243; 273; 304; 334; 365] 0.

(** [func isLeap(year int) bool] *)
Definition isLeap (year : Z) : bool :=
  (Z.rem year 4 =? 0) && (negb (Z.rem year 100 =? 0) || (Z.rem year 400 =? 0)).

(** [func daysIn(m Month, year int) int] *)
Definition daysIn (m year : Z) : Z :=
  if (m =? February) && isLeap year then 29
  else daysBefore m - daysBefore (m - 1).

(** [func norm(hi, lo, base int) (nhi, nlo int)] *)
Definition norm (hi lo base : Z) : Z * Z :=
  let '(hi, lo) :=
    if lo <? 0 then
      let n := Z.quot (- lo - 1) base + 1 in (hi - n, lo + n * base)
    else (hi, lo) in
  if base <=? lo then
    let n := Z.quot lo base in (hi + n, lo - n * base)
  else (hi, lo).

(** Days from January 1 of year 1 to January 1 of [year]
    ([daysSinceEpoch], counted from year 1 instead of the absolute zero
    year, which lies a whole number of 400-year cycles before it). *)
Definition daysSinceYear1 (year : Z) : Z :=
  let y := year - 1 in
  let n400 := y / 400 in
  let y := y - 400 * n400 in
  let n100 := y / 100 in
  let y := y - 100 * n100 in
  let n4 := y / 4 in
  let y := y - 4 * n4 in
  daysPer400Years * n400 + daysPer100Years * n100 + daysPer4Years * n4 + 365 * y.

Section Zones.

(** The zone table of [time.Local] on the machine that runs the
    program. *)
Variable localZone : Z → ZoneSpan.

(** [func (l *Location) lookup(sec int64)] *)
Definition lookup (l : Location) (sec : Z) : ZoneSpan :=
  match l with
  | UTC => mkZoneSpan 0 alpha omega
  | Local => localZone sec
  end.

(** [func Date(year int, month Month, day, hour, min, sec, nsec int,
    loc *Location) Time] *)
Definition Date (year month day hour min sec nsec : Z) (l : Location) : Time :=
  (* Normalize month, overflowing into year. *)
  let m := month - 1 in
  let '(year, m) := norm year m 12 in
  let month := m + 1 in
  (* Normalize nsec, sec, min, hour, overflowing into day. *)
  let '(sec, nsec) := norm sec nsec 1000000000 in
  let '(min, sec) := norm min sec 60 in
  let '(hour, min) := norm hour min 60 in
  let '(day, hour) := norm day hour 24 in
  (* Days since the epoch, days before this month, days before today. *)
  let d := daysSinceYear1 year + daysBefore (month - 1) in
  let d := if isLeap year && (March <=? month) then d + 1 else d in
  let d := d + (day - 1) in
  (* Time elapsed today. *)
  let abs := d * secondsPerDay + (hour * secondsPerHour + min * secondsPerMinute + sec) in
  let unix := abs - unixToInternal in
  (* Look for the zone offset of the expected time, to adjust to UTC. *)
  let unix :=
    match l with
    | UTC => unix
    | _ =>
      let z := lookup l unix in
      if offset z =? 0 then unix
      else
        let utc := unix - offset z in
        let off :=
          if (utc <? zstart z) || (zend z <=? utc) then offset (lookup l utc)
          else offset z in
        unix - off
    end in
  mkTime unix nsec l.

(** [func (t Time) abs() uint64], counted from January 1 of year 1. *)
Definition abs (t : Time) : Z :=
  let sec := unixSec t in
  let sec :=
    match loc t with
    | UTC => sec
    | l => sec + offset (lookup l sec)
    end in
  sec + unixToInternal.

(** [func absDate(abs uint64, full bool) (year int, month Month, day int,
    yday int)] with [full] set; the result is [(year, month, day)]. *)
Definition absDate (abs : Z) : Z * Z * Z :=
  (* Split into time and day. *)
  let d := abs / secondsPerDay in
  (* Account for 400 year cycles. *)
  let n := d / daysPer400Years in
  let y := 400 * n in
  let d := d - daysPer400Years * n in
  (* Cut off 100-year cycles. *)
  let n := d / daysPer100Years in
  let n := n - Z.shiftr n 2 in
  let y := y + 100 * n in
  let d := d - daysPer100Years * n in
  (* Cut off 4-year cycles. *)
  let n := d / daysPer4Years in
  let y := y + 4 * n in
  let d := d - daysPer4Years * n in
  (* Cut off years within a 4-year cycle. *)
  let n := d / 365 in
  let n := n - Z.shiftr n 2 in
  let y := y + n in
  let d := d - 365 * n in
  let year := y + 1 in
  let day := d in
  if isLeap year && (day =? 31 + 29 - 1) then (year, February, 29)
  else
    let day := if isLeap year && (31 + 29 - 1 <? day) then day - 1 else day in
    (* Estimate month on the assumption that every month has 31 days. *)
    let month := day / 31 in
    let end_ := daysBefore (month + 1) in
    let '(month, begin) :=
      if end_ <=? day then (month + 1, end_) else (month, daysBefore month) in
    (year, month + 1, day - begin + 1).

(** [func (t Time) Date() (year int, month Month, day int)] *)
Definition Time_Date (t : Time) : Z * Z * Z := absDate (abs t).

(** [func (t Time) Year() int], [Month() Month] and [Day() int] *)
Definition Year (t : Time) : Z := (Time_Date t).1.1.
Definition Month (t : Time) : Z := (Time_Date t).1.2.
Definition Day (t : Time) : Z := (Time_Date t).2.

(** [func (t Time) Clock() (hour, min, sec int)] *)
Definition Clock (t : Time) : Z * Z * Z :=
  let sec := abs t mod secondsPerDay in
  let hour := sec / secondsPerHour in
  let sec := sec - hour * secondsPerHour in
  let min := sec / secondsPerMinute in
  let sec := sec - min * secondsPerMinute in
  (hour, min, sec).

(** [func (t Time) AddDate(years int, months int, days int) Time] *)
Definition AddDate (t : Time) (years months days : Z) : Time :=
  let '(year, month, day) := Time_Date t in
  let '(hour, min, sec) := Clock t in
  Date (year + years) (month + months) (day + days) hour min sec (nsec t) (loc t).

End Zones.

(** [func (t Time) Add(d Duration) Time] *)
Definition Add (t : Time) (d : Z) : Time :=
  let dsec := Z.quot d 1000000000 in
  let n := nsec t + Z.rem d 1000000000 in
  let '(dsec, n) :=
    if 1000000000 <=? n then (dsec + 1, n - 1000000000)
    else if n <? 0 then (dsec - 1, n + 1000000000)
    else (dsec, n) in
  mkTime (unixSec t + dsec) n (loc t).

(** [func (t Time) After(u Time) bool] *)
Definition After (t u : Time) : bool :=
  (unixSec u <? unixSec t) || ((unixSec t =? unixSec u) && (nsec u <? nsec t)).

(** [func (t Time) Before(u Time) bool] *)
Definition Before (t u : Time) : bool :=
  (unixSec t <? unixSec u) || ((unixSec t =? unixSec u) && (nsec t <? nsec u)).

(** [t == u] on [Time] values: the comparison of the struct fields. *)
Definition eqb (t u : Time) : bool := bool_decide (t = u).

End time.

(** *** [time.Parse]

    A layout is given in the form [nextStdChunk] cuts it into: the
    layout elements, each with the literal text that precedes it, and the
    literal text after the last element. *)
Module timeformat.
Import time.

Local Open Scope Z_scope.

(** The layout elements of the two layouts of [GetCerts]:
    ["2006"], ["01"], ["02"], ["15"], ["04"] and ["05"]. *)
Inductive Std :=
  | stdLongYear | stdZeroMonth | stdZeroDay
  | stdHour | stdZeroMinute | stdZeroSecond.

Definition stdString (std : Std) : string :=
  match std with
  | stdLongYear => "2006" | stdZeroMonth => "01" | stdZeroDay => "02"
  | stdHour => "15" | stdZeroMinute => "04" | stdZeroSecond => "05"
  end.

Definition Layout : Type := list (string * Std) * string.

(** ["2006-01-02"] *)
Definition layoutDate : Layout :=
  ([("", stdLongYear); ("-", stdZeroMonth); ("-", stdZeroDay)], "").

(** ["2006-01-02T15:04:05"] *)
Definition layoutDateTime : Layout :=
  ([("", stdLongYear); ("-", stdZeroMonth); ("-", stdZeroDay);
    ("T", stdHour); (":", stdZeroMinute); (":", stdZeroSecond)], "").

(** [*time.ParseError]: the value does not fit the layout element or
    literal [elem] ([errBad]), a field is out of range, or text is left
    over after the layout. *)
Inductive ParseError :=
  | errBad (elem : string)
  | errOutOfRange (field : string)
  | errExtraText (text : string).

(** The fields [parse] collects. *)
Record Fields := mkFields {
  fyear : Z; fmonth : Z; fday : Z;
  fhour : Z; fmin : Z; fsec : Z; fnsec : Z
}.

(** [s[n:]] *)
Fixpoint sliceFrom (n : nat) (s : string) : string :=
  match n, s with
  | S n, String _ s => sliceFrom n s
  | _, _ => s
  end.

(** [func isDigit(s string, i int) bool] *)
Definition isDigit (s : string) (i : nat) : bool :=
  match String.get i s with
  | Some c => (Ascii.leb "0" c && Ascii.leb c "9")%bool
  | None => false
  end.

Definition digitValue (c : ascii) : Z := Z.of_nat (nat_of_ascii c) - 48.

(** [func commaOrPeriod(b byte) bool] *)
Definition commaOrPeriod (c : ascii) : bool :=
  (Ascii.eqb c "." || Ascii.eqb c ",")%bool.

(** [func getnum(s string, fixed bool) (int, string, error)] *)
Definition getnum (s : string) (fixed : bool) : option (Z * string) :=
  if negb (isDigit s 0) then None
  else if negb (isDigit s 1) then
    if fixed then None
    else match s with
         | String c rest => Some (digitValue c, rest)
         | EmptyString => None
         end
  else match s with
       | String c1 (String c2 rest) => Some (digitValue c1 * 10 + digitValue c2, rest)
       | _ => None
       end.

(** [func leadingInt(s) (x uint64, rem, err error)], with [x] the value
    read so far. *)
Fixpoint leadingInt (s : string) (x : Z) : option (Z * string) :=
  match s with
  | EmptyString => Some (x, s)
  | String c rest =>
    if negb (Ascii.leb "0" c && Ascii.leb c "9") then Some (x, s)
    else if Z.quot (2 ^ 63) 10 <? x then None
    else
      let x := x * 10 + digitValue c in
      if 2 ^ 63 <? x then None else leadingInt rest x
  end.

(** [func atoi(s) (x int, err error)] *)
Definition atoi (s : string) : option Z :=
  let '(neg, s) :=
    match s with
    | String c rest =>
      if (Ascii.eqb c "-" || Ascii.eqb c "+")%bool then (Ascii.eqb c "-", rest)
      else (false, s)
    | EmptyString => (false, s)
    end in
  match leadingInt s 0 with
  | Some (q, EmptyString) => Some (if neg then - q else q)
  | _ => None
  end.

(** [func skip(value, prefix string) (string, error)], for a prefix
    without spaces (the layouts above have none). *)
Fixpoint skip (value prefix : string) : option string :=
  match prefix with
  | EmptyString => Some value
  | String p prefix' =>
    match value with
    | String v value' => if Ascii.eqb v p then skip value' prefix' else None
    | EmptyString => None
    end
  end.

(** The number of digits [s] starts with. *)
Fixpoint digitRun (s : string) : nat :=
  match s with
  | String c rest => if (Ascii.leb "0" c && Ascii.leb c "9")%bool then S (digitRun rest) else O
  | EmptyString => O
  end.

(** [func parseNanoseconds(value, nbytes int) (ns int, rangeErrString
    string, err error)]; [value] starts with the comma or period. *)
Definition parseNanoseconds (value : string) (nbytes : nat) : ParseError + Z :=
  match String.get 0 value with
  | Some c =>
    if negb (commaOrPeriod c) then inl (errBad "05")
    else
      let nbytes := if (10 <? nbytes)%nat then 10%nat else nbytes in
      match atoi (substring 1 (nbytes - 1) value) with
      | None => inl (errBad "05")
      | Some ns =>
        if ns <? 0 then inl (errOutOfRange "fractional second")
        else inr (ns * 10 ^ Z.of_nat (10 - nbytes))
      end
  | None => inl (errBad "05")
  end.

(** One turn of the loop of [parse]: the [switch std & stdMask] on the
    layout element [std], reading from [value]. *)
Definition parseStd (std : Std) (value : string) (f : Fields)
  : ParseError + (string * Fields) :=
  let bad := inl (errBad (stdString std)) in
  match std with
  | stdLongYear =>
    if (String.length value <? 4)%nat || negb (isDigit value 0) then bad
    else match atoi (substring 0 4 value) with
         | Some year =>
           inr (sliceFrom 4 value,
                mkFields year (fmonth f) (fday f) (fhour f) (fmin f) (fsec f) (fnsec f))
         | None => bad
         end
  | stdZeroMonth =>
    match getnum value true with
    | Some (month, value) =>
      if (month <=? 0) || (12 <? month) then inl (errOutOfRange "month")
      else inr (value, mkFields (fyear f) month (fday f) (fhour f) (fmin f) (fsec f) (fnsec f))
    | None => bad
    end
  | stdZeroDay =>
    (* any one- or two-digit day is read here; the day is validated
       against the month and year once parsing is complete *)
    match getnum value true with
    | Some (day, value) =>
      inr (value, mkFields (fyear f) (fmonth f) day (fhour f) (fmin f) (fsec f) (fnsec f))
    | None => bad
    end
  | stdHour =>
    match getnum value false with
    | Some (hour, value) =>
      if (hour <? 0) || (24 <=? hour) then inl (errOutOfRange "hour")
      else inr (value, mkFields (fyear f) (fmonth f) (fday f) hour (fmin f) (fsec f) (fnsec f))
    | None => bad
    end
  | stdZeroMinute =>
    match getnum value true with
    | Some (min, value) =>
      if (min <? 0) || (60 <=? min) then inl (errOutOfRange "minute")
      else inr (value, mkFields (fyear f) (fmonth f) (fday f) (fhour f) min (fsec f) (fnsec f))
    | None => bad
    end
  | stdZeroSecond =>
    match getnum value true with
    | Some (sec, value) =>
      if (sec <? 0) || (60 <=? sec) then inl (errOutOfRange "second")
      else
        let f := mkFields (fyear f) (fmonth f) (fday f) (fhour f) (fmin f) sec (fnsec f) in
        (* a fractional second in the input that the layout does not
           announce *)
        match value with
        | String c0 rest =>
          if (2 <=? String.length value)%nat && commaOrPeriod c0 && isDigit value 1 then
            let n := S (digitRun rest) in
            match parseNanoseconds value n with
            | inr ns =>
              inr (sliceFrom n value,
                   mkFields (fyear f) (fmonth f) (fday f) (fhour f) (fmin f) (fsec f) ns)
            | inl e => inl e
            end
          else inr (value, f)
        | EmptyString => inr (value, f)
        end
    | None => bad
    end
  end.

(** The loop of [parse] over the elements of the layout. *)
Fixpoint parseChunks (chunks : list (string * Std)) (value : string) (f : Fields)
  : ParseError + (string * Fields) :=
  match chunks with
  | [] => inr (value, f)
  | (prefix, std) :: chunks =>
    match skip value prefix with
    | None => inl (errBad prefix)
    | Some value =>
      match parseStd std value f with
      | inl e => inl e
      | inr (value, f) => parseChunks chunks value f
      end
    end
  end.

(** [func Parse(layout, value string) (Time, error)]: the result is in
    UTC, the layouts having no zone element. *)
Definition Parse (layout : Layout) (value : string) : ParseError + Time :=
  match parseChunks layout.1 value (mkFields 0 (-1) (-1) 0 0 0 0) with
  | inl e => inl e
  | inr (value, f) =>
    match skip value layout.2 with
    | None => inl (errBad layout.2)
    | Some value =>
      if negb (String.length value =? 0)%nat then inl (errExtraText value)
      else
        let month := if fmonth f <? 0 then January else fmonth f in
        let day := if fday f <? 0 then 1 else fday f in
        (* Validate the day of the month. *)
        if (day <? 1) || (daysIn month (fyear f) <? day) then inl (errOutOfRange "day")
        else
          inr (Date (λ _, mkZoneSpan 0 alpha omega)
                 (fyear f) month day (fhour f) (fmin f) (fsec f) (fnsec f) UTC)
    end
  end.

End timeformat.

(** ** Strings and numbers *)

(** ["\n"] *)
Definition newline : string := String "010"%char EmptyString.

(** [strconv.Itoa], also the verb [%d] of [fmt]. *)
Definition Itoa (i : Z) : string := NilZero.string_of_int (Z.to_int i).

(** [strings.Replace(s, "%", "%25", -1)] *)
Fixpoint replacePercent (s : string) : string :=
  match s with
  | EmptyString => EmptyString
  | String c rest =>
    if Ascii.eqb c "%" then "%25" +:+ replacePercent rest
    else String c (replacePercent rest)
  end.

(** ** Go's [regexp] package, for patterns built from [\d{n}], literal
    characters, concatenation and named groups *)
Module regexp.

Inductive Regexp :=
  | Digits (n : nat)                      (* [\d{n}] *)
  | Lit (c : ascii)
  | Cat (r1 r2 : Regexp)
  | Capture (name : string) (r : Regexp). (* [(?P<name>r)] *)

(** [n] digits at the start of [s]; the result is what follows them. *)
Fixpoint matchDigits (n : nat) (s : string) : option string :=
  match n with
  | O => Some s
  | S n =>
    match s with
    | String c rest =>
      if (Ascii.leb "0" c && Ascii.leb c "9")%bool then matchDigits n rest else None
    | EmptyString => None
    end
  end.

(** A match of [r] at the start of [s]: what follows the match and the
    text of the groups, in the order of their opening parentheses. *)
Fixpoint matchPrefix (r : Regexp) (s : string) : option (string * list string) :=
  match r with
  | Digits n => rest ← matchDigits n s; Some (rest, [])
  | Lit c =>
    match s with
    | String c' rest => if Ascii.eqb c' c then Some (rest, []) else None
    | EmptyString => None
    end
  | Cat r1 r2 =>
    '(s1, g1) ← matchPrefix r1 s;
    '(s2, g2) ← matchPrefix r2 s1;
    Some (s2, g1 ++ g2)
  | Capture _ r =>
    '(rest, g) ← matchPrefix r s;
    Some (rest, substring 0 (String.length s - String.length rest) s :: g)
  end.

(** [func (re *Regexp) FindStringSubmatch(s string) []string]: the
    leftmost match and its groups; [None] is the nil slice. *)
Fixpoint FindStringSubmatch (re : Regexp) (s : string) : option (list string) :=
  match matchPrefix re s with
  | Some (rest, groups) =>
    Some (substring 0 (String.length s - String.length rest) s :: groups)
  | None =>
    match s with
    | String _ s' => FindStringSubmatch re s'
    | EmptyString => None
    end
  end.

Fixpoint groupNames (re : Regexp) : list string :=
  match re with
  | Digits _ | Lit _ => []
  | Cat r1 r2 => groupNames r1 ++ groupNames r2
  | Capture name r => name :: groupNames r
  end.

(** [func (re *Regexp) SubexpNames() []string] *)
Definition SubexpNames (re : Regexp) : list string := "" :: groupNames re.

End regexp.

(** ** What the program writes and how it ends *)

(** The errors the program logs. *)
Inductive error :=
  | errGet (reason : string)                (* from [client.Get] *)
  | errParse (e : timeformat.ParseError).   (* from [time.Parse] *)

Inductive Level := ErrorLevel | FatalLevel.

(** What a run writes: text on standard output, and log entries (level,
    [WithError] field, message) on standard error. *)
Inductive Event :=
  | Stdout (text : string)
  | Logged (level : Level) (err : option error) (msg : string).

(** How a computation ends: it returns, the process exits ([os.Exit]), or
    it panics. *)
Inductive Outcome (A : Type) :=
  | Returned (a : A)
  | Exited (code : Z)
  | Panicked.
Arguments Returned {A} a.
Arguments Exited {A} code.
Arguments Panicked {A}.

(** A computation: the events it writes, in order, and how it ends. *)
Definition Run (A : Type) : Type := list Event * Outcome A.

#[global] Instance Run_ret : MRet Run := λ A a, ([], Returned a).

#[global] Instance Run_bind : MBind Run := λ A B f m,
  match m.2 with
  | Returned a => (m.1 ++ (f a).1, (f a).2)
  | Exited code => (m.1, Exited code)
  | Panicked => (m.1, Panicked)
  end.

Definition emit (e : Event) : Run unit := ([e], Returned tt).

Module fmt.

(** [fmt.Printf], given the formatted text. *)
Definition Printf (text : string) : Run unit := emit (Stdout text).

(** [fmt.Println] of one string. *)
Definition Println (text : string) : Run unit := emit (Stdout (text +:+ newline)).

End fmt.

Module log.

(** [log.WithError(err).Errorf(...)] and [log.Errorf(...)] *)
Definition Error (err : option error) (msg : string) : Run unit :=
  emit (Logged ErrorLevel err msg).

(** [log.WithError(err).Fatal(msg)] and [log.Fatal(msg)]: the entry is
    written and the process exits with status 1. *)
Definition Fatal {A} (err : option error) (msg : string) : Run A :=
  ([Logged FatalLevel err msg], Exited 1).

End log.

(** The text a run wrote on standard output. *)
Definition stdout {A} (r : Run A) : list string :=
  omap (λ e, match e with Stdout s => Some s | _ => None end) r.1.

(** The log entries of a run. *)
Definition logged {A} (r : Run A) : list (Level * option error * string) :=
  omap (λ e, match e with Logged l err m => Some (l, err, m) | _ => None end) r.1.

(** ** Go's [encoding/json] package *)
Module json.

(** The error of a failed [Decode]: the end of the stream or anything
    else (a syntax error, a value of the wrong type). *)
Inductive DecodeError := EOF | Malformed (reason : string).

(** [*json.Decoder] on the response body: the body is known by what the
    successive calls of [Decode(&c)] with [c] a [[]CertResponse] give on
    it, each either an error or the array read; once the body is
    exhausted [Decode] gives [io.EOF]. *)
Definition Decoder : Type := list (DecodeError + list CertResponse).

(** [func (dec *Decoder) Decode(v any) error]: the result and the decoder
    after the call. *)
Definition Decode (dec : Decoder) : (DecodeError + list CertResponse) * Decoder :=
  match dec with
  | [] => (inl EOF, [])
  | r :: dec => (r, dec)
  end.

(** A JSON text. *)
#[warnings="-register-all"] Inductive Value :=
  | Str (s : string)
  | Num (n : Z)
  | Obj (fields : list (string * Value))
  | Arr (items : list Value).

Definition hex (n : nat) : string :=
  substring n 1 "0123456789abcdef".

(** The length of the UTF-8 sequence [s] starts with ([s] starts with a
    byte above 0x7f), or 0 when the bytes are not valid UTF-8
    ([utf8.DecodeRuneInString] giving [RuneError] of width 1). *)
Definition utf8Width (s : string) : nat :=
  let byte i := default 0%nat (nat_of_ascii <$> String.get i s) in
  let cont lo hi i := ((lo <=? byte i) && (byte i <=? hi))%nat in
  let b0 := byte 0%nat in
  if ((194 <=? b0) && (b0 <=? 223))%nat then
    if cont 128 191 1 then 2 else 0
  else if (b0 =? 224)%nat then
    if cont 160 191 1 && cont 128 191 2 then 3 else 0
  else if (((225 <=? b0) && (b0 <=? 236)) || ((238 <=? b0) && (b0 <=? 239)))%nat then
    if cont 128 191 1 && cont 128 191 2 then 3 else 0
  else if (b0 =? 237)%nat then
    if cont 128 159 1 && cont 128 191 2 then 3 else 0
  else if (b0 =? 240)%nat then
    if cont 144 191 1 && cont 128 191 2 && cont 128 191 3 then 4 else 0
  else if ((241 <=? b0) && (b0 <=? 243))%nat then
    if cont 128 191 1 && cont 128 191 2 && cont 128 191 3 then 4 else 0
  else if (b0 =? 244)%nat then
    if cont 128 143 1 && cont 128 191 2 && cont 128 191 3 then 4 else 0
  else 0.

(** The body of a JSON string: the loop of [appendString] with
    [escapeHTML] set.  [copy] counts the bytes of a valid UTF-8 sequence
    still to be copied, [drop] the bytes of an escaped one still to be
    passed over. *)
Fixpoint escape (copy drop : nat) (s : string) : string :=
  match s with
  | EmptyString => EmptyString
  | String c rest =>
    let b := nat_of_ascii c in
    match drop, copy with
    | S drop, _ => escape copy drop rest
    | O, S copy => String c (escape copy 0 rest)
    | O, O =>
      if (b <? 128)%nat then
        if Ascii.eqb c "\" || Ascii.eqb c "034" then String "\" (String c (escape 0 0 rest))
        else if (b =? 8)%nat then "\b" +:+ escape 0 0 rest
        else if (b =? 12)%nat then "\f" +:+ escape 0 0 rest
        else if (b =? 10)%nat then "\n" +:+ escape 0 0 rest
        else if (b =? 13)%nat then "\r" +:+ escape 0 0 rest
        else if (b =? 9)%nat then "\t" +:+ escape 0 0 rest
        else if (b <? 32)%nat || Ascii.eqb c "<" || Ascii.eqb c ">" || Ascii.eqb c "&" then
          "\u00" +:+ hex (b / 16) +:+ hex (b mod 16) +:+ escape 0 0 rest
        else String c (escape 0 0 rest)
      else
        match utf8Width s with
        | O => "\ufffd" +:+ escape 0 0 rest
        | S w =>
          (* U+2028 LINE SEPARATOR and U+2029 PARAGRAPH SEPARATOR *)
          if bool_decide (substring 0 3 s = String "226" (String "128" (String "168" EmptyString)))
          then "\u2028" +:+ escape 0 2 rest
          else if bool_decide (substring 0 3 s = String "226" (String "128" (String "169" EmptyString)))
          then "\u2029" +:+ escape 0 2 rest
          else String c (escape w 0 rest)
        end
    end
  end.

(** A JSON string literal. *)
Definition quote (s : string) : string :=
  String "034" (escape 0 0 s +:+ String "034" EmptyString).

Fixpoint pad (indent : string) (depth : nat) : string :=
  match depth with
  | O => EmptyString
  | S depth => indent +:+ pad indent depth
  end.

Fixpoint join (sep : string) (parts : list string) : string :=
  match parts with
  | [] => EmptyString
  | [p] => p
  | p :: parts => p +:+ sep +:+ join sep parts
  end.

(** The indented text of a value at nesting depth [depth], as [Indent]
    lays it out with an empty prefix. *)
Fixpoint indented (indent : string) (depth : nat) (v : Value) : string :=
  match v with
  | Str s => quote s
  | Num n => Itoa n
  | Obj [] => "{}"
  | Obj fields =>
    "{" +:+ newline +:+
    join ("," +:+ newline)
      (map (λ kv, pad indent (S depth) +:+ quote kv.1 +:+ ": " +:+
                  indented indent (S depth) kv.2) fields) +:+
    newline +:+ pad indent depth +:+ "}"
  | Arr [] => "[]"
  | Arr items =>
    "[" +:+ newline +:+
    join ("," +:+ newline)
      (map (λ item, pad indent (S depth) +:+ indented indent (S depth) item) items) +:+
    newline +:+ pad indent depth +:+ "]"
  end.

End json.

(** ** The program *)

(** [func (c CertResponse) MarshalJSON() ([]byte, error)]: the JSON
    object of the struct with the field [CertShLink] followed by the
    fields of the embedded [enrichedCertResponse]. *)
Definition MarshalJSON (c : CertResponse) : json.Value :=
  json.Obj [
    ("crt_sh_link", json.Str ("https://crt.sh/?id=" +:+ Itoa (ID c)));
    ("issuer_ca_id", json.Num (IssuerCAID c));
    ("issuer_name", json.Str (IssuerName c));
    ("common_name", json.Str (CommonName c));
    ("name_value", json.Str (NameValue c));
    ("id", json.Num (ID c));
    ("entry_timestamp", json.Str (EntryTimestamp c));
    ("not_before", json.Str (NotBefore c));
    ("not_after", json.Str (NotAfter c));
    ("serial_number", json.Str (SerialNumber c))
  ].

(** [json.MarshalIndent(&outputCerts, "", indent)] on a slice of
    [CertResponse], each element encoded by its [MarshalJSON]. *)
Definition MarshalIndent (certs : list CertResponse) (indent : string) : string :=
  json.indented indent 0 (json.Arr (MarshalJSON <$> certs)).

(** [const gcrtURL] *)
Definition gcrtURL : string := "https://crt.sh".

(** The pattern of the [--between] flag:
    [(?P<startdate>\d{4}-\d{2}-\d{2}):(?P<enddate>\d{4}-\d{2}-\d{2})] *)
Definition betweenPattern : regexp.Regexp :=
  let date :=
    regexp.Cat (regexp.Digits 4)
      (regexp.Cat (regexp.Lit "-")
         (regexp.Cat (regexp.Digits 2)
            (regexp.Cat (regexp.Lit "-") (regexp.Digits 2)))) in
  regexp.Cat (regexp.Capture "startdate" date)
    (regexp.Cat (regexp.Lit ":") (regexp.Capture "enddate" date)).

(** [func reSubMatchMap(regEx, text string) (groupMatchMap
    map[string]string)], on the compiled pattern.  [match[i]] panics when
    [i] is not an index of [match]: the result is then [None]. *)
Definition reSubMatchMap (regEx : regexp.Regexp) (text : string)
  : option (gmap string string) :=
  let compRegEx := regEx in
  let match_ := default [] (regexp.FindStringSubmatch compRegEx text) in
  foldl
    (λ (acc : option (gmap string string)) '(i, name),
       groupMatchMap ← acc;
       if bool_decide (0 < i) && bool_decide (i ≤ length match_) then
         v ← match_ !! i; Some (<[name := v]> groupMatchMap)
       else Some groupMatchMap)
    (Some ∅) (imap pair (regexp.SubexpNames compRegEx)).

(** What a run of the program is given: the flags ([domain], [between],
    [days], [count]), the answer of the remote service to a URL (an error
    of [client.Get], or the response body as the decoder reads it), the
    clock ([time.Now()] in Unix seconds and nanoseconds) and the zone
    table of [time.Local]. *)
Record Env := mkEnv {
  domain : string;
  between : string;
  days : Z;
  count : bool;
  httpGet : string → string + json.Decoder;
  nowUnix : Z;
  nowNsec : Z;
  localZone : Z → time.ZoneSpan
}.

(** [time.Now()] *)
Definition Now (env : Env) : time.Time :=
  time.mkTime (nowUnix env) (nowNsec env) time.Local.

(** The decoding loop of [GetCerts]: [Decode] is called until it fails,
    the arrays read are appended to [certs]. *)
Fixpoint decodeLoop (dec : json.Decoder) (certs : list CertResponse)
  : list CertResponse :=
  match dec with
  | [] => certs                         (* [io.EOF]: break *)
  | inl decodeErr :: _ => certs         (* any other error: break *)
  | inr c :: dec => decodeLoop dec (certs ++ c)
  end.

(** The start of the date-range branch of [GetCerts]: [startDate] and
    [endDate] from the [--between] flag. *)
Definition betweenDates (between : string) : Run (time.Time * time.Time) :=
  match reSubMatchMap betweenPattern between with
  | None => ([], Panicked)
  | Some bDates =>
    startDate ←
      match bDates !! "startdate" with
      | Some d =>
        match timeformat.Parse timeformat.layoutDate d with
        | inr t => mret t
        | inl err => log.Fatal (Some (errParse err)) "Error parsing start date"
        end
      | None => log.Fatal None "start date not provided in valid format"
      end;
    endDate ←
      match bDates !! "enddate" with
      | Some d =>
        match timeformat.Parse timeformat.layoutDate d with
        | inr t =>
          mret (time.Add t (23 * time.Hour + 59 * time.Minute + 59 * time.Second)%Z)
        | inl err => log.Fatal (Some (errParse err)) "Error parsing end date"
        end
      | None => log.Fatal None "end date not provided in valid format"
      end;
    mret (startDate, endDate)
  end.

(** The loop of the date-range branch, [outputCerts] being the records
    kept so far. *)
Fixpoint betweenLoop (startDate endDate : time.Time)
    (certs outputCerts : list CertResponse) : Run (list CertResponse) :=
  match certs with
  | [] => mret outputCerts
  | c :: certs =>
    match timeformat.Parse timeformat.layoutDateTime (NotBefore c) with
    | inl certParseErr =>
      log.Error (Some (errParse certParseErr))
        ("error parsing date in cert " +:+ Itoa (ID c));;
      betweenLoop startDate endDate certs outputCerts
    | inr certDate =>
      if time.After certDate startDate && time.Before certDate endDate
      then betweenLoop startDate endDate certs (outputCerts ++ [c])
      else betweenLoop startDate endDate certs outputCerts
    end
  end.

(** The loop of the days branch. *)
Fixpoint daysLoop (zone : Z → time.ZoneSpan) (now thresholdDate : time.Time)
    (certs outputCerts : list CertResponse) : Run (list CertResponse) :=
  match certs with
  | [] => mret outputCerts
  | c :: certs =>
    match timeformat.Parse timeformat.layoutDateTime (NotBefore c) with
    | inl certParseErr =>
      log.Error (Some (errParse certParseErr))
        ("error parsing date in cert " +:+ Itoa (ID c));;
      daysLoop zone now thresholdDate certs outputCerts
    | inr certDate =>
      (* set the certificate not before date to midnight in local timezone *)
      let certDate :=
        time.Date zone (time.Year zone certDate) (time.Month zone certDate)
          (time.Day zone certDate) 0 0 0 0 (time.loc now) in
      if time.eqb thresholdDate certDate || time.After certDate thresholdDate
      then daysLoop zone now thresholdDate certs (outputCerts ++ [c])
      else daysLoop zone now thresholdDate certs outputCerts
    end
  end.

(** [thresholdDate] of the days branch. *)
Definition thresholdDate (env : Env) : time.Time :=
  let now := Now env in
  time.AddDate (localZone env)
    (time.Date (localZone env) (time.Year (localZone env) now)
       (time.Month (localZone env) now) (time.Day (localZone env) now)
       0 0 0 0 (time.loc now))
    0 0 (- days env).

(** The date filter of [GetCerts]: [outputCerts] from the deduplicated
    [certs]. *)
Definition filterCerts (env : Env) (certs : list CertResponse)
  : Run (list CertResponse) :=
  if bool_decide (0 < String.length (between env)) then
    '(startDate, endDate) ← betweenDates (between env);
    betweenLoop startDate endDate certs []
  else if bool_decide (0 < days env)%Z then
    daysLoop (localZone env) (Now env) (thresholdDate env) certs []
  else mret certs.

(** The end of [GetCerts]: the count, or the records. *)
Definition printCerts (env : Env) (outputCerts : list CertResponse) : Run unit :=
  if count env then
    fmt.Printf ("Number of certs found: " +:+ Itoa (Z.of_nat (length outputCerts)) +:+ newline)
  else if bool_decide (1 < length outputCerts) then
    fmt.Println (MarshalIndent outputCerts "    ")
  else mret tt.

(** The records [GetCerts] holds after the date filter. *)
Definition survivingCerts (env : Env) : Run (list CertResponse) :=
  let cleanDomain := replacePercent (domain env) in
  let url := gcrtURL +:+ "/?q=" +:+ cleanDomain +:+ "&output=json" in
  dec ←
    match httpGet env url with
    | inl err => log.Fatal (Some (errGet err)) "Error Getting Response"
    | inr body => mret body
    end;
  let certs := decodeLoop dec [] in
  (* remove duplicate certs since crt.sh returns both the leaf
     certificate and precertificate *)
  let certs := removeDuplicateCerts certs in
  filterCerts env certs.

(** [func GetCerts()] *)
Definition GetCerts (env : Env) : Run unit :=
  outputCerts ← survivingCerts env;
  printCerts env outputCerts.

(** ** Vocabulary of the statements *)

(** The property the deduplicator is meant to have, in the words of its
    contract: position [i] of the input is a first occurrence when no
    earlier position carries the same key. *)
Definition firstOccurrence (certs : list CertResponse) (i : nat) : Prop :=
  ∃ c, certs !! i = Some c ∧
       ∀ h c', (h < i)%nat → certs !! h = Some c' → dedupKey c' ≠ dedupKey c.

(** The invariant of the loop after the prefix [certs] has been read. *)
Definition dedupInv (certs : list CertResponse)
    (st : gset string * list CertResponse) : Prop :=
  (∀ k, k ∈ st.1 ↔ ∃ c, c ∈ certs ∧ dedupKey c = k) ∧
  (∀ k, k ∈ st.1 → ∃ c, c ∈ st.2 ∧ dedupKey c = k) ∧
  (∀ c, c ∈ st.2 → dedupKey c ∈ st.1) ∧
  NoDup (dedupKey <$> st.2) ∧
  length st.2 ≤ length certs ∧
  ∃ idxs : list nat,
    Forall2 (λ i c, certs !! i = Some c) idxs st.2 ∧
    StronglySorted lt idxs ∧
    ∀ i, i ∈ idxs ↔ firstOccurrence certs i.

(** The maximal run of arrays the decoder reads before its first
    error. *)
Fixpoint readable (dec : json.Decoder) : list (list CertResponse) :=
  match dec with
  | inr c :: dec => c :: readable dec
  | _ => []
  end.

(** [t] is strictly earlier than [u], and [t] is not later than [u], as
    instants. *)
Definition instantLt (t u : time.Time) : Prop :=
  (time.unixSec t < time.unixSec u ∨
   (time.unixSec t = time.unixSec u ∧ time.nsec t < time.nsec u))%Z.

Definition instantLe (t u : time.Time) : Prop :=
  (time.unixSec t < time.unixSec u ∨
   (time.unixSec t = time.unixSec u ∧ time.nsec t ≤ time.nsec u))%Z.


#[global] Instance instantLt_dec t u : Decision (instantLt t u).
Proof. unfold instantLt. apply _. Defined.

#[global] Instance instantLe_dec t u : Decision (instantLe t u).
Proof. unfold instantLe. apply _. Defined.

(** The [notBefore] of [c] parses and lies strictly between [startDate]
    and [endDate]. *)
Definition inDateRange (startDate endDate : time.Time) (c : CertResponse) : Prop :=
  match timeformat.Parse timeformat.layoutDateTime (NotBefore c) with
  | inr certDate => instantLt startDate certDate ∧ instantLt certDate endDate
  | inl _ => False
  end.

#[global] Instance inDateRange_dec startDate endDate c :
  Decision (inDateRange startDate endDate c).
Proof. unfold inDateRange. destruct (timeformat.Parse _ _); apply _. Defined.

(** Midnight, in the local zone, of the calendar day [t] shows. *)
Definition localMidnight (zone : Z → time.ZoneSpan) (t : time.Time) : time.Time :=
  time.Date zone (time.Year zone t) (time.Month zone t) (time.Day zone t)
    0 0 0 0 time.Local.

(** The [notBefore] of [c] parses and its day, at local midnight, is not
    earlier than [threshold]. *)
Definition notBeforeThreshold (zone : Z → time.ZoneSpan) (threshold : time.Time)
    (c : CertResponse) : Prop :=
  match timeformat.Parse timeformat.layoutDateTime (NotBefore c) with
  | inr certDate => instantLe threshold (localMidnight zone certDate)
  | inl _ => False
  end.

#[global] Instance notBeforeThreshold_dec zone threshold c :
  Decision (notBeforeThreshold zone threshold c).
Proof. unfold notBeforeThreshold. destruct (timeformat.Parse _ _); apply _. Defined.

(** The warning the filter loops log for a record whose [notBefore] does
    not parse. *)
Definition parseWarning (c : CertResponse) : option Event :=
  match timeformat.Parse timeformat.layoutDateTime (NotBefore c) with
  | inl certParseErr =>
    Some (Logged ErrorLevel (Some (errParse certParseErr))
            ("error parsing date in cert " +:+ Itoa (ID c)))
  | inr _ => None
  end.

(** The value of the member [key] of a JSON object. *)
Fixpoint lookupMember (key : string) (fields : list (string * json.Value))
  : option json.Value :=
  match fields with
  | [] => None
  | (k, v) :: fields => if String.eqb k key then Some v else lookupMember key fields
  end.

Definition member (key : string) (v : json.Value) : option json.Value :=
  match v with
  | json.Obj fields => lookupMember key fields
  | _ => None
  end.

(** The URL [GetCerts] queries. *)
Definition queryURL (env : Env) : string :=
  gcrtURL +:+ "/?q=" +:+ replacePercent (domain env) +:+ "&output=json".

(** The run [env] with another value of the [--days] flag. *)
Definition withDays (env : Env) (d : Z) : Env :=
  mkEnv (domain env) (between env) d (count env) (httpGet env)
    (nowUnix env) (nowNsec env) (localZone env).

(** An event is a log entry below the fatal level. *)
Definition isWarning (e : Event) : Prop :=
  ∃ err msg, e = Logged ErrorLevel err msg.

(** An event is a log entry. *)
Definition isLogged (e : Event) : Prop :=
  ∃ level err msg, e = Logged level err msg.

#[global] Instance CertResponse_eq_dec : EqDecision CertResponse.
Proof. solve_decision. Defined.

(** ** Sample inputs *)

Definition utcZone : Z → time.ZoneSpan :=
  λ _, time.mkZoneSpan 0 time.alpha time.omega.

(** A zone one hour east of UTC all year. *)
Definition cetZone : Z → time.ZoneSpan :=
  λ _, time.mkZoneSpan 3600 time.alpha time.omega.

Definition sampleCert (id : Z) (nameValue notBefore : string) : CertResponse :=
  mkCertResponse 16418 "C=US, O=Let's Encrypt, CN=R3" "example.com" nameValue id
    "2021-06-15T01:02:03.456" notBefore "2021-09-13T00:00:00" "03ab".

(** A run on the records [certs], sent by the service as one array,
    with the given flags, at noon UTC of 2024-01-10. *)
Definition sampleEnv (between : string) (days : Z) (count : bool)
    (certs : list CertResponse) : Env :=
  mkEnv "%.example.com" between days count (λ _, inr [inr certs])
    1704888000 0 utcZone.

(** ** Computations: the laws used below *)

Lemma Run_bind_ret_l {A B} (a : A) (f : A → Run B) : mret a ≫= f = f a.
Proof. unfold mret, mbind, Run_ret, Run_bind. simpl. by destruct (f a). Qed.

Lemma Run_bind_returned {A B} evs (a : A) (f : A → Run B) :
  (evs, Returned a) ≫= f = (evs ++ (f a).1, (f a).2).
Proof. done. Qed.

Lemma Run_bind_exited {A B} evs code (f : A → Run B) :
  (evs, Exited code) ≫= f = (evs, Exited code).
Proof. done. Qed.

Lemma Run_bind_panicked {A B} evs (f : A → Run B) :
  (evs, Panicked) ≫= f = (evs, Panicked).
Proof. done. Qed.

(** ** Deduplication: proofs *)

Lemma firstOccurrence_lt certs i :
  firstOccurrence certs i → (i < length certs)%nat.
Proof. intros (c & Hc & _). by eapply lookup_lt_Some. Qed.

Lemma firstOccurrence_snoc_old certs x i :
  (i < length certs)%nat →
  firstOccurrence (certs ++ [x]) i ↔ firstOccurrence certs i.
Proof.
  intros Hi. unfold firstOccurrence. split.
  - intros (c & Hc & Hfirst). exists c.
    rewrite lookup_app_l in Hc by done. split; [done|].
    intros h c' Hh Hc'. apply (Hfirst h c' Hh).
    rewrite lookup_app_l; [done | lia].
  - intros (c & Hc & Hfirst). exists c.
    rewrite lookup_app_l by done. split; [done|].
    intros h c' Hh Hc'. apply (Hfirst h c' Hh).
    rewrite lookup_app_l in Hc'; [done | lia].
Qed.

Lemma firstOccurrence_snoc_new certs x :
  firstOccurrence (certs ++ [x]) (length certs) ↔
  ¬ ∃ c, c ∈ certs ∧ dedupKey c = dedupKey x.
Proof.
  unfold firstOccurrence. split.
  - intros (c & Hc & Hfirst) (c' & Hin & Hkey).
    rewrite lookup_app_r, Nat.sub_diag in Hc by done. simplify_eq/=.
    apply list_elem_of_lookup in Hin as [h Hh].
    apply (Hfirst h c'); [by eapply lookup_lt_Some | | done].
    rewrite lookup_app_l; [done | by eapply lookup_lt_Some].
  - intros Hnone. exists x. split.
    + by rewrite lookup_app_r, Nat.sub_diag.
    + intros h c' Hh Hc' Hkey. apply Hnone. exists c'. split; [|done].
      rewrite lookup_app_l in Hc' by done. by eapply list_elem_of_lookup_2.
Qed.

Lemma dedupInv_nil : dedupInv [] (∅, []).
Proof.
  split; [|split; [|split; [|split; [|split]]]]; simpl.
  - intros k. split; [set_solver|]. intros (c & Hc & _). set_solver.
  - set_solver.
  - set_solver.
  - constructor.
  - done.
  - exists []. split; [constructor|]. split; [constructor|].
    intros i. split; [set_solver|].
    intros H%firstOccurrence_lt. simpl in H. lia.
Qed.

Lemma dedupInv_step certs st x :
  dedupInv certs st → dedupInv (certs ++ [x]) (dedupStep st x).
Proof.
  destruct st as [m out].
  intros (Hm & Hrep & Hout_m & Hnodup & Hlen & idxs & Hout & Hsorted & Hidx).
  simpl in *. case_decide as Hseen; simpl.
  - (* the key has been seen: the record is dropped *)
    split; [|split; [done|split; [done|split; [done|split]]]].
    + intros k. cbn. rewrite Hm. setoid_rewrite elem_of_app. split.
      * intros (c & ? & ?). eauto.
      * intros (c & [? | Hx%list_elem_of_singleton] & ?); [eauto|].
        subst. by apply Hm.
    + rewrite length_app. simpl. lia.
    + exists idxs. split; [|split; [done|]].
      * eapply Forall2_impl; [exact Hout|]. intros i c Hi. simpl in Hi.
        rewrite lookup_app_l; [done | by eapply lookup_lt_Some].
      * intros i. destruct (decide (i < length certs)%nat) as [Hlt|Hge].
        { by rewrite firstOccurrence_snoc_old, Hidx. }
        split.
        { intros Hi%Hidx%firstOccurrence_lt. lia. }
        intros Hfo. pose proof (firstOccurrence_lt _ _ Hfo) as Hlen'.
        rewrite length_app in Hlen'. simpl in Hlen'.
        assert (i = length certs) as -> by lia.
        apply firstOccurrence_snoc_new in Hfo. destruct Hfo. by apply Hm.
  - (* a new key: the record is appended *)
    split; [|split; [|split; [|split; [|split]]]].
    + intros k. cbn. rewrite elem_of_union, elem_of_singleton, Hm.
      setoid_rewrite elem_of_app. setoid_rewrite list_elem_of_singleton. split.
      * intros [-> | (c & ? & ?)]; eauto.
      * intros (c & [? | ->] & ?); eauto.
    + intros k. cbn. rewrite elem_of_union, elem_of_singleton.
      setoid_rewrite elem_of_app. setoid_rewrite list_elem_of_singleton.
      intros [-> | (c & ? & ?)%Hrep]; eauto.
    + intros c. cbn. rewrite elem_of_app, list_elem_of_singleton.
      rewrite elem_of_union, elem_of_singleton. intros [?%Hout_m | ->]; eauto.
    + cbn. rewrite fmap_app. apply NoDup_app. split; [done|]. split.
      * intros k (c & -> & Hc%Hout_m)%list_elem_of_fmap Hk.
        apply list_elem_of_singleton in Hk. apply Hseen. by rewrite <- Hk.
      * apply NoDup_singleton.
    + cbn. rewrite !length_app. simpl. lia.
    + exists (idxs ++ [length certs]). split; [|split].
      * apply Forall2_app.
        { eapply Forall2_impl; [exact Hout|]. intros i c Hi. simpl in Hi.
          rewrite lookup_app_l; [done | by eapply lookup_lt_Some]. }
        constructor; [|constructor]. by rewrite lookup_app_r, Nat.sub_diag.
      * apply StronglySorted_app_2; [|done|repeat constructor].
        intros i j Hi%Hidx%firstOccurrence_lt Hj%list_elem_of_singleton. lia.
      * intros i. rewrite elem_of_app, list_elem_of_singleton.
        destruct (decide (i < length certs)%nat) as [Hlt|Hge].
        { rewrite firstOccurrence_snoc_old, Hidx by done. split; [|tauto].
          intros [? | ->]; [done | lia]. }
        split.
        { intros [Hi%Hidx%firstOccurrence_lt | ->]; [lia|].
          apply firstOccurrence_snoc_new. intros Hex. by apply Hseen, Hm. }
        intros Hfo%firstOccurrence_lt. rewrite length_app in Hfo.
        simpl in Hfo. right. lia.
Qed.

Lemma dedupInv_foldl certs : dedupInv certs (foldl dedupStep (∅, []) certs).
Proof.
  induction certs as [|x certs IH] using rev_ind.
  - apply dedupInv_nil.
  - rewrite foldl_snoc. by apply dedupInv_step.
Qed.

Lemma removeDuplicateCerts_two_equal_keys c1 c2 :
  dedupKey c1 = dedupKey c2 → removeDuplicateCerts [c1; c2] = [c1].
Proof.
  intros Hkey. unfold removeDuplicateCerts. simpl.
  rewrite decide_False by set_solver. simpl.
  rewrite decide_True by set_solver. done.
Qed.

(** C3. For every input sequence, [removeDuplicateCerts] returns a
    sequence no longer than the input in which no two records have the
    same key (as concatenation, hence as a pair), and which consists of
    the records at the first-occurrence positions of the input, in
    increasing order of position: a record at position [j] whose key
    occurs at an earlier position [i] is dropped, the one kept for that
    key being the one at its first position. *)
Theorem removeDuplicateCerts_keeps_first_occurrences (certs : list CertResponse) :
  length (removeDuplicateCerts certs) ≤ length certs ∧
  NoDup (dedupKey <$> removeDuplicateCerts certs) ∧
  NoDup ((λ c, (NameValue c, NotBefore c)) <$> removeDuplicateCerts certs) ∧
  ∃ idxs : list nat,
    Forall2 (λ i c, certs !! i = Some c) idxs (removeDuplicateCerts certs) ∧
    StronglySorted lt idxs ∧
    (∀ i, i ∈ idxs ↔ firstOccurrence certs i) ∧
    (∀ i j ci cj, i < j → certs !! i = Some ci → certs !! j = Some cj →
                  dedupKey ci = dedupKey cj → j ∉ idxs) ∧
    (∀ j cj, certs !! j = Some cj →
             ∃ i ci, i ≤ j ∧ i ∈ idxs ∧ certs !! i = Some ci ∧
                     ci ∈ removeDuplicateCerts certs ∧ dedupKey ci = dedupKey cj).
Proof.
  unfold removeDuplicateCerts.
  destruct (dedupInv_foldl certs)
    as (Hm & Hrep & Hout_m & Hnodup & Hlen & idxs & Hout & Hsorted & Hidx).
  destruct (foldl dedupStep (∅, []) certs) as [m out]. simpl in *.
  split; [done|]. split; [done|]. split.
  { apply (NoDup_fmap_1 (λ p : string * string, p.1 +:+ p.2)).
    by rewrite <- list_fmap_compose. }
  exists idxs. split; [done|]. split; [done|]. split; [done|]. split.
  - intros i j ci cj Hij Hi Hj Hkey (c & Hc & Hfirst)%Hidx.
    simplify_eq. by apply (Hfirst i ci).
  - intros j cj Hj.
    assert (dedupKey cj ∈ m) as (ci & Hci & Hkey)%Hrep.
    { apply Hm. exists cj. split; [|done]. by eapply list_elem_of_lookup_2. }
    pose proof Hci as [p Hp]%list_elem_of_lookup.
    destruct (Forall2_lookup_r _ _ _ _ _ Hout Hp) as (i & Hip & Hi).
    assert (i ∈ idxs) as Hin by (by eapply list_elem_of_lookup_2).
    exists i, ci. split; [|done].
    destruct (decide (i ≤ j)) as [|Hgt]; [done|]. exfalso.
    apply Hidx in Hin as (c & Hc & Hfirst). simplify_eq.
    apply (Hfirst j cj); [lia | done | done].
Qed.

(** C10. The key is the plain concatenation of [NameValue] and
    [NotBefore]: the records with the pairs [("a", "bc")] and
    [("ab", "c")] differ as pairs and have the same key, and of the two
    the deduplicator drops the second. *)
Theorem removeDuplicateCerts_key_is_concatenation :
  ∃ c1 c2 : CertResponse,
    (NameValue c1, NotBefore c1) = ("a", "bc") ∧
    (NameValue c2, NotBefore c2) = ("ab", "c") ∧
    (NameValue c1, NotBefore c1) ≠ (NameValue c2, NotBefore c2) ∧
    dedupKey c1 = dedupKey c2 ∧
    removeDuplicateCerts [c1; c2] = [c1].
Proof.
  exists (sampleCert 1 "a" "bc"), (sampleCert 2 "ab" "c").
  do 4 (split; [done|]).
  by apply removeDuplicateCerts_two_equal_keys.
Qed.

(** ** Decoding: proofs *)

Lemma decodeLoop_Decode dec certs :
  decodeLoop dec certs =
  match json.Decode dec with
  | (inl _, _) => certs
  | (inr c, dec) => decodeLoop dec (certs ++ c)
  end.
Proof. by destruct dec as [|[err|c] dec]. Qed.

Lemma decodeLoop_readable dec certs :
  decodeLoop dec certs = certs ++ concat (readable dec).
Proof.
  revert certs. induction dec as [|[err|c] dec IH]; intros certs; simpl.
  - by rewrite app_nil_r.
  - by rewrite app_nil_r.
  - by rewrite IH, app_assoc.
Qed.

Lemma readable_split dec :
  ∃ tail, dec = (inr <$> readable dec) ++ tail ∧
          ∃ err, (json.Decode tail).1 = inl err.
Proof.
  induction dec as [|[err|c] dec (tail & Hdec & Herr)]; simpl.
  - exists []. split; [done|]. by exists json.EOF.
  - exists (inl err :: dec). split; [done|]. by exists err.
  - exists tail. split; [by f_equal | done].
Qed.

Lemma survivingCerts_decoded env dec :
  httpGet env (queryURL env) = inr dec →
  survivingCerts env = filterCerts env (removeDuplicateCerts (concat (readable dec))).
Proof.
  intros Hget. unfold survivingCerts. fold (queryURL env). rewrite Hget.
  rewrite Run_bind_ret_l. by rewrite decodeLoop_readable.
Qed.

(** C4. The loop asks the decoder for one array after the other and
    appends what it reads, in order; the first failing [Decode], whatever
    its error (the end of the stream included), ends the loop, and the
    run goes on with the records read so far: two arrays [a] and [b]
    give [a ++ b]. *)
Theorem decoding_stops_at_first_error (env : Env) (dec : json.Decoder)
    (Hget : httpGet env (queryURL env) = inr dec) :
  (∀ d certs,
     decodeLoop d certs =
     match json.Decode d with
     | (inl _, _) => certs
     | (inr c, d') => decodeLoop d' (certs ++ c)
     end) ∧
  (∃ tail, dec = (inr <$> readable dec) ++ tail ∧
           ∃ err, (json.Decode tail).1 = inl err) ∧
  decodeLoop dec [] = concat (readable dec) ∧
  (∀ a b, dec = [inr a; inr b] → decodeLoop dec [] = a ++ b) ∧
  (∀ a b err rest, dec = inr a :: inr b :: inl err :: rest →
                   decodeLoop dec [] = a ++ b) ∧
  survivingCerts env = filterCerts env (removeDuplicateCerts (concat (readable dec))).
Proof.
  split; [apply decodeLoop_Decode|].
  split; [apply readable_split|].
  split; [apply decodeLoop_readable|].
  split; [|split].
  - intros a b ->. rewrite decodeLoop_readable. simpl. by rewrite app_nil_r.
  - intros a b err rest ->. rewrite decodeLoop_readable. simpl. by rewrite app_nil_r.
  - by apply survivingCerts_decoded.
Qed.

(** One array, then the end of the stream. *)
Lemma decoding_stops_at_first_error_witness :
  let certs := [sampleCert 1 "a.example.com" "2021-06-15T00:00:00"] in
  let env := sampleEnv "" 0 false certs in
  httpGet env (queryURL env) = inr [inr certs] ∧
  decodeLoop [inr certs] [] = concat (readable [inr certs]).
Proof.
  intros certs env. split; [reflexivity|].
  exact (proj1 (proj2 (proj2
    (decoding_stops_at_first_error env [inr certs] eq_refl)))).
Defined.

(** ** The [--between] flag: proofs *)

Lemma matchPrefix_groups r s rest g :
  regexp.matchPrefix r s = Some (rest, g) →
  length g = length (regexp.groupNames r).
Proof.
  revert s rest g. induction r as [n|c|r1 IH1 r2 IH2|name r IH]; intros s rest g; cbn.
  - destruct (regexp.matchDigits n s); cbn; intros; simplify_eq; done.
  - destruct s as [|c' s]; [done|]. case_match; intros; simplify_eq; done.
  - destruct (regexp.matchPrefix r1 s) as [[s1 g1]|] eqn:H1; [|done]. cbn.
    destruct (regexp.matchPrefix r2 s1) as [[s2 g2]|] eqn:H2; [|done]. cbn.
    intros. simplify_eq. rewrite !length_app.
    by rewrite (IH1 _ _ _ H1), (IH2 _ _ _ H2).
  - destruct (regexp.matchPrefix r s) as [[s1 g1]|] eqn:H1; [|done]. cbn.
    intros. simplify_eq. cbn. by rewrite (IH _ _ _ H1).
Qed.

Lemma FindStringSubmatch_length re s m :
  regexp.FindStringSubmatch re s = Some m →
  length m = length (regexp.SubexpNames re).
Proof.
  induction s as [|c s IH]; simpl.
  - destruct (regexp.matchPrefix re "") as [[rest g]|] eqn:Hm; [|done].
    intros. simplify_eq. simpl. by erewrite matchPrefix_groups.
  - destruct (regexp.matchPrefix re (String c s)) as [[rest g]|] eqn:Hm; [|done].
    intros. simplify_eq. simpl. by erewrite matchPrefix_groups.
Qed.

Lemma between_match_cases text :
  regexp.FindStringSubmatch betweenPattern text = None ∨
  ∃ whole s e, regexp.FindStringSubmatch betweenPattern text = Some [whole; s; e].
Proof.
  destruct (regexp.FindStringSubmatch betweenPattern text) as [m|] eqn:Hm; [|by left].
  right. apply FindStringSubmatch_length in Hm. simpl in Hm.
  destruct m as [|whole [|s [|e [|? ?]]]]; simplify_eq/=. eauto.
Qed.

Lemma reSubMatchMap_between_match text whole s e :
  regexp.FindStringSubmatch betweenPattern text = Some [whole; s; e] →
  reSubMatchMap betweenPattern text = Some (<["enddate" := e]> (<["startdate" := s]> ∅)).
Proof. intros Hm. unfold reSubMatchMap. by rewrite Hm. Qed.

Lemma reSubMatchMap_between_no_match text :
  regexp.FindStringSubmatch betweenPattern text = None →
  reSubMatchMap betweenPattern text = Some ∅.
Proof. intros Hm. unfold reSubMatchMap. by rewrite Hm. Qed.

(** The index [match[i]] of [reSubMatchMap] is always in range for the
    pattern of [--between]. *)
Lemma reSubMatchMap_between_no_panic text :
  is_Some (reSubMatchMap betweenPattern text).
Proof.
  destruct (between_match_cases text) as [Hm|(whole & s & e & Hm)].
  - rewrite reSubMatchMap_between_no_match; eauto.
  - erewrite reSubMatchMap_between_match; eauto.
Qed.

Lemma bDates_startdate (s e : string) :
  (<["enddate" := e]> (<["startdate" := s]> ∅) : gmap string string) !! "startdate" = Some s.
Proof.
  rewrite (lookup_insert_ne (M:=gmap string)) by discriminate.
  apply (lookup_insert_eq (M:=gmap string)).
Qed.

Lemma bDates_enddate (s e : string) :
  (<["enddate" := e]> (<["startdate" := s]> ∅) : gmap string string) !! "enddate" = Some e.
Proof. apply (lookup_insert_eq (M:=gmap string)). Qed.

Lemma betweenDates_valid text whole s e startDate endDate :
  regexp.FindStringSubmatch betweenPattern text = Some [whole; s; e] →
  timeformat.Parse timeformat.layoutDate s = inr startDate →
  timeformat.Parse timeformat.layoutDate e = inr endDate →
  betweenDates text =
  ([], Returned (startDate,
                 time.Add endDate (23 * time.Hour + 59 * time.Minute + 59 * time.Second))).
Proof.
  intros Hm Hs He. unfold betweenDates.
  erewrite reSubMatchMap_between_match by done.
  rewrite bDates_startdate, bDates_enddate.
  rewrite Hs, He. by rewrite !Run_bind_ret_l.
Qed.

Lemma betweenDates_no_match text :
  regexp.FindStringSubmatch betweenPattern text = None →
  betweenDates text =
  ([Logged FatalLevel None "start date not provided in valid format"], Exited 1).
Proof.
  intros Hm. unfold betweenDates.
  rewrite reSubMatchMap_between_no_match by done. by rewrite lookup_empty.
Qed.

Lemma betweenDates_bad_start text whole s e err :
  regexp.FindStringSubmatch betweenPattern text = Some [whole; s; e] →
  timeformat.Parse timeformat.layoutDate s = inl err →
  betweenDates text =
  ([Logged FatalLevel (Some (errParse err)) "Error parsing start date"], Exited 1).
Proof.
  intros Hm Hs. unfold betweenDates.
  erewrite reSubMatchMap_between_match by done.
  rewrite bDates_startdate. by rewrite Hs.
Qed.

Lemma betweenDates_bad_end text whole s e startDate err :
  regexp.FindStringSubmatch betweenPattern text = Some [whole; s; e] →
  timeformat.Parse timeformat.layoutDate s = inr startDate →
  timeformat.Parse timeformat.layoutDate e = inl err →
  betweenDates text =
  ([Logged FatalLevel (Some (errParse err)) "Error parsing end date"], Exited 1).
Proof.
  intros Hm Hs He. unfold betweenDates.
  erewrite reSubMatchMap_between_match by done.
  rewrite bDates_startdate, bDates_enddate.
  rewrite Hs, He. by rewrite Run_bind_ret_l.
Qed.

(** ** The date filters: proofs *)

Lemma After_instantLt t u : time.After t u = true ↔ instantLt u t.
Proof.
  unfold time.After, instantLt.
  rewrite orb_true_iff, andb_true_iff, !Z.ltb_lt, Z.eqb_eq. lia.
Qed.

Lemma Before_instantLt t u : time.Before t u = true ↔ instantLt t u.
Proof.
  unfold time.Before, instantLt.
  rewrite orb_true_iff, andb_true_iff, !Z.ltb_lt, Z.eqb_eq. lia.
Qed.

Lemma Date_loc zone year month day hour min sec nsec l :
  time.loc (time.Date zone year month day hour min sec nsec l) = l.
Proof. unfold time.Date. by repeat case_match. Qed.


Lemma AddDate_loc zone t years months days :
  time.loc (time.AddDate zone t years months days) = time.loc t.
Proof. unfold time.AddDate. repeat case_match. apply Date_loc. Qed.

Lemma thresholdDate_loc env : time.loc (thresholdDate env) = time.Local.
Proof. unfold thresholdDate. by rewrite AddDate_loc, Date_loc. Qed.

Lemma eqb_or_After_instantLe t u :
  time.loc t = time.loc u →
  time.eqb t u || time.After u t = true ↔ instantLe t u.
Proof.
  intros Hloc. rewrite orb_true_iff, After_instantLt.
  unfold time.eqb, instantLe, instantLt. rewrite bool_decide_eq_true.
  destruct t as [ts tn tl], u as [us un ul]. simpl in *. subst. split.
  - intros [? | ?]; [simplify_eq|]; lia.
  - intros [? | [-> Hn]]; [right; lia|].
    destruct (decide (tn = un)) as [->|]; [by left | right; lia].
Qed.

Lemma inDateRange_parsed startDate endDate c certDate :
  timeformat.Parse timeformat.layoutDateTime (NotBefore c) = inr certDate →
  inDateRange startDate endDate c ↔
  instantLt startDate certDate ∧ instantLt certDate endDate.
Proof. intros Hparse. unfold inDateRange. by rewrite Hparse. Qed.

Lemma inDateRange_unparsed startDate endDate c err :
  timeformat.Parse timeformat.layoutDateTime (NotBefore c) = inl err →
  ¬ inDateRange startDate endDate c.
Proof. intros Hparse. unfold inDateRange. rewrite Hparse. tauto. Qed.

Lemma notBeforeThreshold_parsed zone threshold c certDate :
  timeformat.Parse timeformat.layoutDateTime (NotBefore c) = inr certDate →
  notBeforeThreshold zone threshold c ↔
  instantLe threshold (localMidnight zone certDate).
Proof. intros Hparse. unfold notBeforeThreshold. by rewrite Hparse. Qed.

Lemma notBeforeThreshold_unparsed zone threshold c err :
  timeformat.Parse timeformat.layoutDateTime (NotBefore c) = inl err →
  ¬ notBeforeThreshold zone threshold c.
Proof. intros Hparse. unfold notBeforeThreshold. rewrite Hparse. tauto. Qed.

Lemma betweenLoop_spec startDate endDate certs outputCerts :
  betweenLoop startDate endDate certs outputCerts =
  (omap parseWarning certs,
   Returned (outputCerts ++ filter (inDateRange startDate endDate) certs)).
Proof.
  revert outputCerts. induction certs as [|c certs IH]; intros outputCerts.
  - simpl. by rewrite app_nil_r.
  - simpl. unfold parseWarning at 1.
    destruct (timeformat.Parse timeformat.layoutDateTime (NotBefore c))
      as [err|certDate] eqn:Hparse.
    + rewrite filter_cons_False by (by eapply inDateRange_unparsed).
      unfold log.Error, emit. rewrite Run_bind_returned, IH. done.
    + destruct (time.After certDate startDate && time.Before certDate endDate)
        eqn:Hin; rewrite IH.
      * apply andb_true_iff in Hin as [Ha%After_instantLt Hb%Before_instantLt].
        rewrite filter_cons_True by (by eapply inDateRange_parsed).
        by rewrite <- app_assoc.
      * rewrite filter_cons_False; [done|].
        rewrite inDateRange_parsed by done.
        intros [Ha%After_instantLt Hb%Before_instantLt].
        by rewrite Ha, Hb in Hin.
Qed.

Lemma daysLoop_spec zone now threshold certs outputCerts :
  time.loc now = time.Local →
  time.loc threshold = time.Local →
  daysLoop zone now threshold certs outputCerts =
  (omap parseWarning certs,
   Returned (outputCerts ++ filter (notBeforeThreshold zone threshold) certs)).
Proof.
  intros Hnow Hthr. revert outputCerts.
  induction certs as [|c certs IH]; intros outputCerts.
  - simpl. by rewrite app_nil_r.
  - simpl. unfold parseWarning at 1. rewrite Hnow.
    destruct (timeformat.Parse timeformat.layoutDateTime (NotBefore c))
      as [err|certDate] eqn:Hparse.
    + rewrite filter_cons_False by (by eapply notBeforeThreshold_unparsed).
      unfold log.Error, emit. rewrite Run_bind_returned, IH. done.
    + fold (localMidnight zone certDate).
      assert (time.loc threshold = time.loc (localMidnight zone certDate)) as Hloc.
      { unfold localMidnight. by rewrite Date_loc. }
      destruct (time.eqb threshold (localMidnight zone certDate)
                || time.After (localMidnight zone certDate) threshold)
        eqn:Hin; rewrite IH.
      * apply eqb_or_After_instantLe in Hin; [|done].
        rewrite filter_cons_True by (by eapply notBeforeThreshold_parsed).
        by rewrite <- app_assoc.
      * rewrite filter_cons_False; [done|].
        rewrite notBeforeThreshold_parsed by done.
        intros Hle%eqb_or_After_instantLe; [|done]. by rewrite Hle in Hin.
Qed.

Lemma filterCerts_between env certs whole s e startDate endDate :
  0 < String.length (between env) →
  regexp.FindStringSubmatch betweenPattern (between env) = Some [whole; s; e] →
  timeformat.Parse timeformat.layoutDate s = inr startDate →
  timeformat.Parse timeformat.layoutDate e = inr endDate →
  filterCerts env certs =
  (omap parseWarning certs,
   Returned (filter
     (inDateRange startDate
        (time.Add endDate (23 * time.Hour + 59 * time.Minute + 59 * time.Second)))
     certs)).
Proof.
  intros Hmode Hm Hs He. unfold filterCerts.
  rewrite bool_decide_eq_true_2 by done.
  erewrite betweenDates_valid by done.
  rewrite Run_bind_returned. by rewrite betweenLoop_spec.
Qed.

Lemma filterCerts_between_exited env certs evs code :
  0 < String.length (between env) →
  betweenDates (between env) = (evs, Exited code) →
  filterCerts env certs = (evs, Exited code).
Proof.
  intros Hmode Hdates. unfold filterCerts.
  rewrite bool_decide_eq_true_2 by done. by rewrite Hdates.
Qed.

Lemma filterCerts_days env certs :
  String.length (between env) = 0 →
  (0 < days env)%Z →
  filterCerts env certs =
  (omap parseWarning certs,
   Returned (filter (notBeforeThreshold (localZone env) (thresholdDate env)) certs)).
Proof.
  intros Hmode Hdays. unfold filterCerts.
  rewrite bool_decide_eq_false_2 by lia.
  rewrite bool_decide_eq_true_2 by done.
  by rewrite daysLoop_spec by (done || apply thresholdDate_loc).
Qed.

Lemma filterCerts_unfiltered env certs :
  String.length (between env) = 0 →
  (days env ≤ 0)%Z →
  filterCerts env certs = ([], Returned certs).
Proof.
  intros Hmode Hdays. unfold filterCerts.
  rewrite bool_decide_eq_false_2 by lia.
  by rewrite bool_decide_eq_false_2 by lia.
Qed.

Lemma betweenDates_cases text :
  (∃ whole s e startDate endDate,
     regexp.FindStringSubmatch betweenPattern text = Some [whole; s; e] ∧
     timeformat.Parse timeformat.layoutDate s = inr startDate ∧
     timeformat.Parse timeformat.layoutDate e = inr endDate) ∨
  (∃ err msg, betweenDates text = ([Logged FatalLevel err msg], Exited 1)).
Proof.
  destruct (between_match_cases text) as [Hm|(whole & s & e & Hm)].
  - right. rewrite betweenDates_no_match by done. eauto.
  - destruct (timeformat.Parse timeformat.layoutDate s) as [err|startDate] eqn:Hs.
    { right. erewrite betweenDates_bad_start by done. eauto. }
    destruct (timeformat.Parse timeformat.layoutDate e) as [err|endDate] eqn:He.
    { right. erewrite betweenDates_bad_end by done. eauto. }
    left. by exists whole, s, e, startDate, endDate.
Qed.

Lemma parseWarning_isWarning c e : parseWarning c = Some e → isWarning e.
Proof.
  unfold parseWarning. case_match; [|done]. intros [= <-]. by eexists _, _.
Qed.

Lemma parseWarnings_isWarning certs : Forall isWarning (omap parseWarning certs).
Proof.
  apply Forall_forall. intros e (c & _ & Hc)%list_elem_of_omap.
  by eapply parseWarning_isWarning.
Qed.

Lemma isWarning_isLogged e : isWarning e → isLogged e.
Proof. intros (err & msg & ->). by eexists _, _, _. Qed.

Lemma filterCerts_isLogged env certs : Forall isLogged (filterCerts env certs).1.
Proof.
  destruct (decide (0 < String.length (between env))) as [Hmode|Hmode].
  - destruct (betweenDates_cases (between env))
      as [(whole & s & e & startDate & endDate & Hm & Hs & He)|(err & msg & Hfatal)].
    + erewrite filterCerts_between by done. simpl.
      eapply Forall_impl; [apply parseWarnings_isWarning | apply isWarning_isLogged].
    + erewrite filterCerts_between_exited by done. simpl.
      constructor; [by eexists _, _, _ | constructor].
  - destruct (decide (0 < days env)%Z).
    + rewrite filterCerts_days by (done || lia). simpl.
      eapply Forall_impl; [apply parseWarnings_isWarning | apply isWarning_isLogged].
    + rewrite filterCerts_unfiltered by lia. constructor.
Qed.

Lemma survivingCerts_cases env :
  (∃ err, httpGet env (queryURL env) = inl err ∧
          survivingCerts env =
          ([Logged FatalLevel (Some (errGet err)) "Error Getting Response"], Exited 1)) ∨
  (∃ dec, httpGet env (queryURL env) = inr dec ∧
          survivingCerts env =
          filterCerts env (removeDuplicateCerts (concat (readable dec)))).
Proof.
  destruct (httpGet env (queryURL env)) as [err|dec] eqn:Hget.
  - left. exists err. split; [done|].
    unfold survivingCerts. fold (queryURL env). by rewrite Hget.
  - right. exists dec. split; [done|]. by apply survivingCerts_decoded.
Qed.

Lemma survivingCerts_isLogged env : Forall isLogged (survivingCerts env).1.
Proof.
  destruct (survivingCerts_cases env) as [(err & _ & ->)|(dec & _ & ->)].
  - constructor; [by eexists _, _, _ | constructor].
  - apply filterCerts_isLogged.
Qed.

(** The date filter returns or ends the process; it does not panic. *)
Lemma filterCerts_outcome env certs :
  (∃ outputCerts, (filterCerts env certs).2 = Returned outputCerts) ∨
  (filterCerts env certs).2 = Exited 1.
Proof.
  destruct (decide (0 < String.length (between env))) as [Hmode|Hmode].
  - destruct (betweenDates_cases (between env))
      as [(whole & s & e & startDate & endDate & Hm & Hs & He)|(err & msg & Hfatal)].
    + left. erewrite filterCerts_between by done. eauto.
    + right. by erewrite filterCerts_between_exited by done.
  - left. destruct (decide (0 < days env)%Z).
    + rewrite filterCerts_days by (done || lia). eauto.
    + rewrite filterCerts_unfiltered by lia. eauto.
Qed.

Lemma stdout_isLogged {A} (r : Run A) : Forall isLogged r.1 → stdout r = [].
Proof.
  unfold stdout. induction 1 as [|e evs (level & err & msg & ->) _ IH]; [done|].
  simpl. exact IH.
Qed.

Lemma stdout_bind {A B} (m : Run A) (f : A → Run B) a :
  m.2 = Returned a →
  stdout (m ≫= f) = stdout m ++ stdout (f a).
Proof.
  destruct m as [evs out]. simpl. intros ->.
  rewrite Run_bind_returned. unfold stdout. simpl. by rewrite omap_app.
Qed.

(** ** Parsed times: the nanoseconds are below one second *)














(** ** The date-range filter *)




(** The examples of the date-range filter: within the range, after it,
    on its last second and on its first instant. *)
Example date_range_examples :
  let c15 := sampleCert 1 "a.example.com" "2021-06-15T00:00:00" in
  let july := sampleCert 2 "b.example.com" "2021-07-01T00:00:00" in
  let last := sampleCert 4 "d.example.com" "2021-06-30T23:59:58" in
  let first := sampleCert 5 "e.example.com" "2021-06-01T00:00:00" in
  survivingCerts (sampleEnv "2021-06-01:2021-06-30" 0 false [c15; july; last; first])
    = ([], Returned [c15; last]).
Proof. vm_compute. done. Qed.

(** ** The choice of the filter *)

Lemma filterCerts_withDays env d certs :
  0 < String.length (between env) →
  filterCerts (withDays env d) certs = filterCerts env certs.
Proof.
  intros Hmode. unfold filterCerts. simpl.
  by rewrite bool_decide_eq_true_2 by done.
Qed.

(** C7. The filter is chosen by the flags, one case excluding the
    others: a non-empty [--between] selects the date range, whatever
    [--days] is; otherwise a positive [--days] selects the threshold;
    otherwise the deduplicated records go through as they are, in the
    same order, and nothing is logged. *)
Theorem filter_mode_selection (env : Env) (certs : list CertResponse) :
  (0 < String.length (between env) →
     filterCerts env certs =
       ('(startDate, endDate) ← betweenDates (between env);
        betweenLoop startDate endDate certs []) ∧
     ∀ d, filterCerts (withDays env d) certs = filterCerts env certs) ∧
  (String.length (between env) = 0 → (0 < days env)%Z →
     filterCerts env certs =
       daysLoop (localZone env) (Now env) (thresholdDate env) certs []) ∧
  (String.length (between env) = 0 → (days env ≤ 0)%Z →
     filterCerts env certs = ([], Returned certs)) ∧
  (0 < String.length (between env) ∨
   (String.length (between env) = 0 ∧ (0 < days env)%Z) ∨
   (String.length (between env) = 0 ∧ (days env ≤ 0)%Z)).
Proof.
  split; [|split; [|split]].
  - intros Hmode. split.
    + unfold filterCerts. by rewrite bool_decide_eq_true_2 by done.
    + intros d. by apply filterCerts_withDays.
  - intros Hmode Hdays. unfold filterCerts.
    rewrite bool_decide_eq_false_2 by lia.
    by rewrite bool_decide_eq_true_2 by done.
  - apply filterCerts_unfiltered.
  - lia.
Qed.

(** With both flags given, the date range decides; with none, nothing is
    filtered. *)
Lemma filter_mode_selection_witness :
  let certs := [sampleCert 1 "a.example.com" "2021-06-15T00:00:00";
                sampleCert 2 "b.example.com" "1999-01-01T00:00:00"] in
  let both := sampleEnv "2021-06-01:2021-06-30" 7 false certs in
  let none := sampleEnv "" 0 false certs in
  0 < String.length (between both) ∧
  (∀ d, filterCerts (withDays both d) certs = filterCerts both certs) ∧
  (String.length (between none) = 0 ∧ (days none ≤ 0)%Z) ∧
  filterCerts none certs = ([], Returned certs).
Proof.
  intros certs both none.
  assert (0 < String.length (between both)) as Hboth by (vm_compute; lia).
  assert (String.length (between none) = 0) as Hnone by reflexivity.
  assert (days none ≤ 0)%Z as Hdays by (vm_compute; discriminate).
  split; [exact Hboth|]. split.
  - exact (proj2 (proj1 (filter_mode_selection both certs) Hboth)).
  - split; [exact (conj Hnone Hdays)|].
    exact (proj1 (proj2 (proj2 (filter_mode_selection none certs))) Hnone Hdays).
Defined.

(** ** Fatal errors of the date range *)

Lemma GetCerts_exited env evs code :
  survivingCerts env = (evs, Exited code) → GetCerts env = (evs, Exited code).
Proof. intros Hrun. unfold GetCerts. by rewrite Hrun. Qed.



(** What the run logs for flags that do not hold a range, and for a range
    whose end is not a date. *)
Example malformed_date_range_examples :
  GetCerts (sampleEnv "yesterday" 0 false [])
    = ([Logged FatalLevel None "start date not provided in valid format"], Exited 1) ∧
  GetCerts (sampleEnv "2021-06-01:2021-6-30" 0 false [])
    = ([Logged FatalLevel None "start date not provided in valid format"], Exited 1) ∧
  GetCerts (sampleEnv "2021-13-01:2021-06-30" 0 false [])
    = ([Logged FatalLevel (Some (errParse (timeformat.errOutOfRange "month")))
          "Error parsing start date"], Exited 1) ∧
  GetCerts (sampleEnv "2021-06-01:2021-02-29" 0 false [])
    = ([Logged FatalLevel (Some (errParse (timeformat.errOutOfRange "day")))
          "Error parsing end date"], Exited 1).
Proof. vm_compute. done. Qed.

(** ** Records whose date does not parse *)

Lemma printCerts_returns env outputCerts :
  (printCerts env outputCerts).2 = Returned ().
Proof. unfold printCerts. by repeat case_match. Qed.

Lemma GetCerts_returned env evs outputCerts :
  survivingCerts env = (evs, Returned outputCerts) →
  GetCerts env = (evs ++ (printCerts env outputCerts).1, Returned ()).
Proof.
  intros Hrun. unfold GetCerts. rewrite Hrun, Run_bind_returned.
  by rewrite printCerts_returns.
Qed.

Lemma filter_without {A} (P : A → Prop) `{!∀ x, Decision (P x)} `{!EqDecision A}
    (c : A) (l : list A) :
  ¬ P c → filter P (filter (λ x, x ≠ c) l) = filter P l.
Proof.
  intros Hc. induction l as [|x l IH]; [done|].
  destruct (decide (x = c)) as [->|Hne].
  - rewrite (filter_cons_False (λ x, x ≠ c)) by naive_solver.
    by rewrite (filter_cons_False P) by done.
  - rewrite (filter_cons_True (λ x, x ≠ c)) by done.
    destruct (decide (P x)).
    + rewrite !(filter_cons_True P) by done. by rewrite IH.
    + rewrite !(filter_cons_False P) by done. by rewrite IH.
Qed.

Lemma betweenDates_returned text dates :
  betweenDates text = ([], Returned dates) →
  ∃ whole s e startDate endDate,
    regexp.FindStringSubmatch betweenPattern text = Some [whole; s; e] ∧
    timeformat.Parse timeformat.layoutDate s = inr startDate ∧
    timeformat.Parse timeformat.layoutDate e = inr endDate.
Proof.
  intros Hdates.
  destruct (betweenDates_cases text) as [Hvalid|(err & msg & Hfatal)]; [done|].
  rewrite Hfatal in Hdates. discriminate.
Qed.

(** In both filtering modes the filter returns the records it keeps and
    logs one warning for each record whose date does not parse. *)
Lemma filterCerts_filtering env :
  (0 < String.length (between env) ∧
   ∃ dates, betweenDates (between env) = ([], Returned dates)) ∨
  (String.length (between env) = 0 ∧ (0 < days env)%Z) →
  ∃ (P : CertResponse → Prop) (Hdec : ∀ c, Decision (P c)),
    (∀ certs', filterCerts env certs'
               = (omap parseWarning certs', Returned (filter P certs'))) ∧
    (∀ c, P c → ∃ certDate,
            timeformat.Parse timeformat.layoutDateTime (NotBefore c) = inr certDate).
Proof.
  intros [[Hmode [dates Hdates]]|[Hmode Hdays]].
  - apply betweenDates_returned in Hdates
      as (whole & s & e & startDate & endDate & Hm & Hs & He).
    eexists (inDateRange startDate _), _. split.
    + intros certs'. by eapply filterCerts_between.
    + intros c Hc. unfold inDateRange in Hc. case_match; [done | eauto].
  - eexists (notBeforeThreshold _ _), _. split.
    + intros certs'. by apply filterCerts_days.
    + intros c Hc. unfold notBeforeThreshold in Hc. case_match; [done | eauto].
Qed.

(** C6. In date-range mode (with a valid range) and in days mode alike,
    a record whose [notBefore] does not parse with the layout
    [2006-01-02T15:04:05] is left out of the output, a warning naming its
    id is logged, nothing is logged at the fatal level, the run returns,
    and the output is what it would be had the record not been there. *)
Theorem unparsable_notBefore_is_skipped (env : Env) (dec : json.Decoder)
    (c : CertResponse) (err : timeformat.ParseError)
    (Hget : httpGet env (queryURL env) = inr dec)
    (Hmode : (0 < String.length (between env) ∧
              ∃ dates, betweenDates (between env) = ([], Returned dates)) ∨
             (String.length (between env) = 0 ∧ (0 < days env)%Z))
    (Hc : c ∈ removeDuplicateCerts (concat (readable dec)))
    (Herr : timeformat.Parse timeformat.layoutDateTime (NotBefore c) = inl err) :
  let certs := removeDuplicateCerts (concat (readable dec)) in
  ∃ outputCerts,
    survivingCerts env = (omap parseWarning certs, Returned outputCerts) ∧
    (c ∉ outputCerts) ∧
    Logged ErrorLevel (Some (errParse err))
      ("error parsing date in cert " +:+ Itoa (ID c)) ∈ (GetCerts env).1 ∧
    Forall isWarning (survivingCerts env).1 ∧
    (GetCerts env).2 = Returned () ∧
    (filterCerts env (filter (λ c', c' ≠ c) certs)).2 = Returned outputCerts.
Proof.
  intros certs.
  destruct (filterCerts_filtering env Hmode) as (P & Hdec & Hfilter & Hparsed).
  assert (¬ P c) as HPc.
  { intros (certDate & Hparse)%Hparsed. by rewrite Hparse in Herr. }
  assert (survivingCerts env = (omap parseWarning certs, Returned (filter P certs)))
    as Hrun.
  { rewrite (survivingCerts_decoded env dec Hget). apply Hfilter. }
  exists (filter P certs). split; [done|]. split; [|split; [|split; [|split]]].
  - intros [? _]%list_elem_of_filter. done.
  - rewrite (GetCerts_returned _ _ _ Hrun). simpl.
    apply elem_of_app. left. apply list_elem_of_omap. exists c. split; [done|].
    unfold parseWarning. by rewrite Herr.
  - rewrite Hrun. apply parseWarnings_isWarning.
  - by rewrite (GetCerts_returned _ _ _ Hrun).
  - rewrite Hfilter. simpl. by rewrite filter_without.
Qed.

(** A date written with a space instead of the [T]. *)
Lemma unparsable_notBefore_is_skipped_witness :
  let bad := sampleCert 2 "b.example.com" "2021-06-16 00:00:00" in
  let certs := [sampleCert 1 "a.example.com" "2021-06-15T00:00:00"; bad;
                sampleCert 3 "c.example.com" "2021-06-17T00:00:00"] in
  let env := sampleEnv "2021-06-01:2021-06-30" 0 false certs in
  timeformat.Parse timeformat.layoutDateTime (NotBefore bad)
    = inl (timeformat.errBad "T") ∧
  ∃ outputCerts,
    survivingCerts env
      = (omap parseWarning (removeDuplicateCerts (concat (readable [inr certs]))),
         Returned outputCerts) ∧
    bad ∉ outputCerts.
Proof.
  intros bad certs env. split; [reflexivity|].
  destruct (unparsable_notBefore_is_skipped env [inr certs] bad (timeformat.errBad "T"))
    as (outputCerts & Hrun & Hout & _).
  - reflexivity.
  - left. split; [vm_compute; lia|]. eexists. vm_compute. reflexivity.
  - vm_compute. apply list_elem_of_In. simpl. tauto.
  - reflexivity.
  - exists outputCerts. split; [exact Hrun | exact Hout].
Defined.

(** A record whose date does not parse, in each of the two modes: the
    warning, and the other records as usual. *)
Example unparsable_notBefore_examples :
  let good := sampleCert 1 "a.example.com" "2021-06-15T00:00:00" in
  let bad := sampleCert 2 "b.example.com" "15 June 2021" in
  let late := sampleCert 3 "c.example.com" "2024-01-09T08:00:00" in
  let warning :=
    Logged ErrorLevel (Some (errParse (timeformat.errBad "2006")))
      "error parsing date in cert 2" in
  GetCerts (sampleEnv "2021-06-01:2021-06-30" 0 true [good; bad; late])
    = ([warning; Stdout ("Number of certs found: 1" +:+ newline)], Returned ()) ∧
  survivingCerts (sampleEnv "" 7 false [good; bad; late])
    = ([warning], Returned [late]).
Proof. vm_compute. done. Qed.

(** ** The days threshold *)











(** The same two records seen from a zone one hour east of UTC, half an
    hour after the local midnight of 2024-01-10 (the day before, in UTC):
    the threshold is the local midnight of 2024-01-03. *)
Example days_filter_local_zone :
  let kept := sampleCert 1 "a.example.com" "2024-01-03T00:00:00" in
  let dropped := sampleCert 2 "b.example.com" "2024-01-02T23:59:59" in
  let env := mkEnv "%.example.com" "" 7 true (λ _, inr [inr [kept; dropped]])
               1704843000 0 cetZone in
  time.Time_Date (localZone env) (Now env) = (2024, 1, 10)%Z ∧
  thresholdDate env = time.mkTime (1704240000 - 3600) 0 time.Local ∧
  survivingCerts env = ([], Returned [kept]) ∧
  GetCerts env = ([Stdout ("Number of certs found: 1" +:+ newline)], Returned ()).
Proof. vm_compute. done. Qed.

(** ** The output *)

Lemma stdout_GetCerts env evs outputCerts :
  survivingCerts env = (evs, Returned outputCerts) →
  stdout (GetCerts env) = stdout (printCerts env outputCerts).
Proof.
  intros Hrun. unfold GetCerts.
  rewrite (stdout_bind _ _ outputCerts) by (by rewrite Hrun).
  by rewrite (stdout_isLogged (survivingCerts env)) by apply survivingCerts_isLogged.
Qed.

(** C2. Without [--count], the records are printed, as one indented JSON
    array of the objects [MarshalJSON] gives, if and only if at least two
    of them are left after filtering; when exactly one is left nothing is
    printed.  In each object the member [crt_sh_link] is
    [https://crt.sh/?id=] followed by the id of the record:
    [https://crt.sh/?id=99] for the id 99. *)
Theorem records_printed_iff_at_least_two (env : Env) (evs : list Event)
    (outputCerts : list CertResponse)
    (Hcount : count env = false)
    (Hrun : survivingCerts env = (evs, Returned outputCerts)) :
  (2 ≤ length outputCerts ↔
   stdout (GetCerts env) = [MarshalIndent outputCerts "    " +:+ newline]) ∧
  (length outputCerts < 2 ↔ stdout (GetCerts env) = []) ∧
  (length outputCerts = 1 → stdout (GetCerts env) = []) ∧
  MarshalIndent outputCerts "    "
    = json.indented "    " 0 (json.Arr (MarshalJSON <$> outputCerts)) ∧
  (∀ c, member "crt_sh_link" (MarshalJSON c)
        = Some (json.Str ("https://crt.sh/?id=" +:+ Itoa (ID c)))) ∧
  (∀ c, ID c = 99%Z →
        member "crt_sh_link" (MarshalJSON c) = Some (json.Str "https://crt.sh/?id=99")).
Proof.
  rewrite (stdout_GetCerts _ _ _ Hrun). unfold printCerts. rewrite Hcount.
  split; [|split; [|split; [|split; [done|split]]]].
  - case_bool_decide; split; try done; try lia.
  - case_bool_decide; split; try done; try lia.
  - intros Hone. by rewrite bool_decide_eq_false_2 by lia.
  - done.
  - intros c Hid. simpl. by rewrite Hid.
Qed.

(** One record left: nothing is printed. *)
Lemma records_printed_iff_at_least_two_witness :
  let one := [sampleCert 99 "a.example.com" "2021-06-15T00:00:00"] in
  let env := sampleEnv "" 0 false one in
  count env = false ∧
  survivingCerts env = ([], Returned one) ∧
  stdout (GetCerts env) = [].
Proof.
  intros one env. split; [reflexivity|].
  assert (survivingCerts env = ([], Returned one)) as Hrun by (vm_compute; reflexivity).
  split; [exact Hrun|].
  exact (proj1 (proj2 (proj2 (records_printed_iff_at_least_two env [] one eq_refl Hrun)))
           eq_refl).
Defined.

(** What is printed for two records, the first with the id 99, and for
    each of them alone. *)
Example records_printed_examples :
  let c99 := mkCertResponse 16418 "C=US, O=Let's Encrypt, CN=R3" "example.com"
               "www.example.com" 99 "2021-06-15T01:02:03.456" "2021-06-15T00:00:00"
               "2021-09-13T00:00:00" "03ab" in
  let c100 := mkCertResponse 183267 "C=US, O=<Example & Co>" "example.org"
                "example.org" 100 "2021-06-16T01:02:03" "2021-06-16T00:00:00"
                "2021-09-14T00:00:00" "04cd" in
  let q := String "034" EmptyString in
  let line (depth : nat) (text : string) := json.pad "    " depth +:+ text +:+ newline in
  GetCerts (sampleEnv "" 0 false [c99; c100]) =
    ([Stdout (
        line 0 "[" +:+
        line 1 "{" +:+
        line 2 (q +:+ "crt_sh_link" +:+ q +:+ ": " +:+ q +:+ "https://crt.sh/?id=99" +:+ q +:+ ",") +:+
        line 2 (q +:+ "issuer_ca_id" +:+ q +:+ ": 16418,") +:+
        line 2 (q +:+ "issuer_name" +:+ q +:+ ": " +:+ q +:+ "C=US, O=Let's Encrypt, CN=R3" +:+ q +:+ ",") +:+
        line 2 (q +:+ "common_name" +:+ q +:+ ": " +:+ q +:+ "example.com" +:+ q +:+ ",") +:+
        line 2 (q +:+ "name_value" +:+ q +:+ ": " +:+ q +:+ "www.example.com" +:+ q +:+ ",") +:+
        line 2 (q +:+ "id" +:+ q +:+ ": 99,") +:+
        line 2 (q +:+ "entry_timestamp" +:+ q +:+ ": " +:+ q +:+ "2021-06-15T01:02:03.456" +:+ q +:+ ",") +:+
        line 2 (q +:+ "not_before" +:+ q +:+ ": " +:+ q +:+ "2021-06-15T00:00:00" +:+ q +:+ ",") +:+
        line 2 (q +:+ "not_after" +:+ q +:+ ": " +:+ q +:+ "2021-09-13T00:00:00" +:+ q +:+ ",") +:+
        line 2 (q +:+ "serial_number" +:+ q +:+ ": " +:+ q +:+ "03ab" +:+ q) +:+
        line 1 "}," +:+
        line 1 "{" +:+
        line 2 (q +:+ "crt_sh_link" +:+ q +:+ ": " +:+ q +:+ "https://crt.sh/?id=100" +:+ q +:+ ",") +:+
        line 2 (q +:+ "issuer_ca_id" +:+ q +:+ ": 183267,") +:+
        line 2 (q +:+ "issuer_name" +:+ q +:+ ": " +:+ q +:+ "C=US, O=\u003cExample \u0026 Co\u003e" +:+ q +:+ ",") +:+
        line 2 (q +:+ "common_name" +:+ q +:+ ": " +:+ q +:+ "example.org" +:+ q +:+ ",") +:+
        line 2 (q +:+ "name_value" +:+ q +:+ ": " +:+ q +:+ "example.org" +:+ q +:+ ",") +:+
        line 2 (q +:+ "id" +:+ q +:+ ": 100,") +:+
        line 2 (q +:+ "entry_timestamp" +:+ q +:+ ": " +:+ q +:+ "2021-06-16T01:02:03" +:+ q +:+ ",") +:+
        line 2 (q +:+ "not_before" +:+ q +:+ ": " +:+ q +:+ "2021-06-16T00:00:00" +:+ q +:+ ",") +:+
        line 2 (q +:+ "not_after" +:+ q +:+ ": " +:+ q +:+ "2021-09-14T00:00:00" +:+ q +:+ ",") +:+
        line 2 (q +:+ "serial_number" +:+ q +:+ ": " +:+ q +:+ "04cd" +:+ q) +:+
        line 1 "}" +:+
        line 0 "]")],
     Returned ()) ∧
  GetCerts (sampleEnv "" 0 false [c99]) = ([], Returned ()) ∧
  GetCerts (sampleEnv "" 0 false [c100]) = ([], Returned ()) ∧
  GetCerts (sampleEnv "" 0 false []) = ([], Returned ()).
Proof. vm_compute. done. Qed.

(** C8. With [--count], a run that reaches the output prints one line,
    [Number of certs found: ] followed by the number of records left
    after filtering, and returns: no record is printed, however many are
    left.  Five records left give [Number of certs found: 5]. *)
Theorem count_only_prints_the_count (env : Env) (evs : list Event)
    (outputCerts : list CertResponse)
    (Hcount : count env = true)
    (Hrun : survivingCerts env = (evs, Returned outputCerts)) :
  stdout (GetCerts env)
    = ["Number of certs found: " +:+ Itoa (Z.of_nat (length outputCerts)) +:+ newline] ∧
  (GetCerts env).2 = Returned () ∧
  (length outputCerts = 5 →
   stdout (GetCerts env) = ["Number of certs found: 5" +:+ newline]).
Proof.
  rewrite (stdout_GetCerts _ _ _ Hrun), (GetCerts_returned _ _ _ Hrun).
  unfold printCerts. rewrite Hcount.
  split; [done|]. split; [done|]. by intros ->.
Qed.

(** Five records left. *)
Lemma count_only_prints_the_count_witness :
  let five := [sampleCert 1 "a.example.com" "2021-06-15T00:00:00";
               sampleCert 2 "b.example.com" "2021-06-15T00:00:00";
               sampleCert 3 "c.example.com" "2021-06-15T00:00:00";
               sampleCert 4 "d.example.com" "2021-06-15T00:00:00";
               sampleCert 5 "e.example.com" "2021-06-15T00:00:00"] in
  let env := sampleEnv "" 0 true five in
  count env = true ∧
  survivingCerts env = ([], Returned five) ∧
  stdout (GetCerts env) = ["Number of certs found: 5" +:+ newline].
Proof.
  intros five env. split; [reflexivity|].
  assert (survivingCerts env = ([], Returned five)) as Hrun by (vm_compute; reflexivity).
  split; [exact Hrun|].
  exact (proj2 (proj2 (count_only_prints_the_count env [] five eq_refl Hrun)) eq_refl).
Defined.

(** ** The run as a whole *)

(** A run of [GetCerts] returns, or exits with status 1 after a fatal log
    entry; the index [match[i]] of [reSubMatchMap] never leaves the
    slice. *)
Lemma GetCerts_outcome env :
  (GetCerts env).2 = Returned () ∨
  ((GetCerts env).2 = Exited 1 ∧
   ∃ err msg, last (GetCerts env).1 = Some (Logged FatalLevel err msg)).
Proof.
  destruct (survivingCerts_cases env) as [(e & _ & Hrun)|(dec & _ & Hrun)].
  - right. rewrite (GetCerts_exited _ _ _ Hrun). eauto.
  - destruct (decide (0 < String.length (between env))) as [Hmode|Hmode].
    + destruct (betweenDates_cases (between env))
        as [(whole & s & e & startDate & endDate & Hm & Hs & He)|(err & msg & Hfatal)].
      * left. erewrite filterCerts_between in Hrun by done.
        by rewrite (GetCerts_returned _ _ _ Hrun).
      * right. erewrite filterCerts_between_exited in Hrun by done.
        rewrite (GetCerts_exited _ _ _ Hrun). eauto.
    + left. destruct (decide (0 < days env)%Z).
      * rewrite filterCerts_days in Hrun by (done || lia).
        by rewrite (GetCerts_returned _ _ _ Hrun).
      * rewrite filterCerts_unfiltered in Hrun by lia.
        by rewrite (GetCerts_returned _ _ _ Hrun).
Qed.
